(** * CardSense: a shallow embedding of the card and transaction logic

    The development follows the TypeScript sources of the application:
    - [types.ts]: [Category], [Transaction], [Card], [ParsedSmsData];
    - [App.tsx]: the aggregations [monthlySummary] and [cardExpenses], the
      store updates [handleSaveCard], [handleSaveTransaction],
      [handleParseSms] and the spending-notification effect;
    - [services/geminiService.ts]: the acceptance test of [parseSmsExpense];
    - [components/AddCardModal.tsx]: the validation in [handleSubmit];
    - [components/AddTransactionModal.tsx]: the checks of its [handleSubmit].

    Modelling conventions.
    - A JavaScript string is a [string] whose characters are read as code
      units in the Latin-1 range.
    - Transaction amounts and derived sums are exact rationals ([Q]);
      rounding and overflow of IEEE doubles are not modelled.  The result
      of [parseFloat], which is stored unguarded in [Card.limit], is a
      [number]: a rational, an infinity or [NaN].
    - A [Map] is an insertion-ordered association list ([JsMap]); the
      plain object used for [sentNotifications] is a [gmap string bool].
    - React state setters are explicit state passing; the queued updater
      functions of one effect run are applied in order to the state the
      run started from.  The hook [useLocalStorage] is not among the
      sources: the three collections it holds are fields of [App.State]
      and its setters behave as those of [useState].  The timer that
      clears a banner after three seconds is not modelled. *)

From Stdlib Require Import Ascii QArith Qabs Qround DecimalString Sorted Lqa.
From stdpp Require Import base list strings gmap.

Local Open Scope Z_scope.

(** ** JavaScript strings *)

Module JsString.

Definition code (c : ascii) : Z := Z.of_nat (Ascii.nat_of_ascii c).

Definition ofCode (n : Z) : ascii := Ascii.ascii_of_nat (Z.to_nat n).

(** [\d] of a regular expression without the unicode flag. *)
Definition isDigit (c : ascii) : bool := (48 <=? code c) && (code c <=? 57).

Definition digitValue (c : ascii) : Z := code c - 48.

(** White space and line terminators below U+0100: TAB, LF, VT, FF, CR,
    SP and NBSP. *)
Definition isWhiteSpace (c : ascii) : bool :=
  let n := code c in
  ((9 <=? n) && (n <=? 13)) || (n =? 32) || (n =? 160).

Fixpoint trimStart (s : string) : string :=
  match s with
  | String c r => if isWhiteSpace c then trimStart r else s
  | EmptyString => EmptyString
  end.

Fixpoint trimEnd (s : string) : string :=
  match s with
  | String c r =>
      match trimEnd r with
      | EmptyString => if isWhiteSpace c then EmptyString else String c EmptyString
      | r' => String c r'
      end
  | EmptyString => EmptyString
  end.

(** [String.prototype.trim]. *)
Definition trim (s : string) : string := trimEnd (trimStart s).

(** Upper-case letters below U+0100 are A-Z and the Latin-1 block
    U+00C0-U+00DE without the multiplication sign U+00D7. *)
Definition lowerChar (c : ascii) : ascii :=
  let n := code c in
  if ((65 <=? n) && (n <=? 90)) || ((192 <=? n) && (n <=? 222) && negb (n =? 215))
  then ofCode (n + 32) else c.

(** [String.prototype.toLowerCase]. *)
Fixpoint toLowerCase (s : string) : string :=
  match s with
  | String c r => String (lowerChar c) (toLowerCase r)
  | EmptyString => EmptyString
  end.

(** Truthiness of a string: every string but the empty one. *)
Definition truthy (s : string) : bool :=
  match s with EmptyString => false | String _ _ => true end.

(** [s1 === s2] on strings. *)
Definition eqb (s1 s2 : string) : bool := bool_decide (s1 = s2).

(** Template-literal rendering of an integer. *)
Definition ofZ (z : Z) : string := NilZero.string_of_int (Z.to_int z).

Fixpoint startsWith (p s : string) : bool :=
  match p, s with
  | EmptyString, _ => true
  | String a p', String b s' => bool_decide (a = b) && startsWith p' s'
  | String _ _, EmptyString => false
  end.

End JsString.

(** ** JavaScript numbers *)

Module JsNumber.

Inductive number : Type :=
| NaN
| Infinity (negative : bool)
| Fin (q : Q).

Definition ofZ (z : Z) : number := Fin (inject_Z z).

Definition isNegative (q : Q) : bool := Qnum q <? 0.

Definition isZero (q : Q) : bool := Qnum q =? 0.

(** The relational comparison of two numbers; [None] when either is
    [NaN], in which case [<], [<=], [>] and [>=] are all false. *)
Definition compare (a b : number) : option comparison :=
  match a, b with
  | NaN, _ | _, NaN => None
  | Infinity true, Infinity true | Infinity false, Infinity false => Some Eq
  | Infinity true, _ | _, Infinity false => Some Lt
  | Infinity false, _ | _, Infinity true => Some Gt
  | Fin x, Fin y => Some (x ?= y)%Q
  end.

Definition gt (a b : number) : bool :=
  match compare a b with Some Gt => true | _ => false end.

Definition ge (a b : number) : bool :=
  match compare a b with Some Gt | Some Eq => true | _ => false end.

Definition le (a b : number) : bool :=
  match compare a b with Some Lt | Some Eq => true | _ => false end.

Definition isNaN (a : number) : bool :=
  match a with NaN => true | _ => false end.

(** [a / b]; the sign of a zero is not tracked, a zero divisor counts as
    positive. *)
Definition div (a b : number) : number :=
  match a, b with
  | NaN, _ | _, NaN => NaN
  | Infinity _, Infinity _ => NaN
  | Infinity s, Fin y => Infinity (xorb s (isNegative y))
  | Fin _, Infinity _ => Fin 0
  | Fin x, Fin y =>
      if isZero y then (if isZero x then NaN else Infinity (isNegative x))
      else Fin (x / y)
  end.

Definition mul (a b : number) : number :=
  match a, b with
  | NaN, _ | _, NaN => NaN
  | Infinity s, Infinity s' => Infinity (xorb s s')
  | Infinity s, Fin y | Fin y, Infinity s =>
      if isZero y then NaN else Infinity (xorb s (isNegative y))
  | Fin x, Fin y => Fin (x * y)
  end.

(** [q || 0] for a possibly missing numeric entry: [undefined] and [0]
    are falsy. *)
Definition orZero (o : option Q) : Q :=
  match o with
  | Some q => if isZero q then 0%Q else q
  | None => 0%Q
  end.

(** *** [parseFloat] *)

(** Reads the longest run of decimal digits, accumulating the value and
    counting the digits. *)
Fixpoint readDigits (s : string) (acc : Z) (n : nat) : Z * nat * string :=
  match s with
  | String c r =>
      if JsString.isDigit c
      then readDigits r (10 * acc + JsString.digitValue c) (S n)
      else (acc, n, s)
  | EmptyString => (acc, n, s)
  end.

Definition readSign (s : string) : bool * string :=
  match s with
  | String "-"%char r => (true, r)
  | String "+"%char r => (false, r)
  | _ => (false, s)
  end.

Definition readExponent (s : string) : Z :=
  match s with
  | String c r =>
      if bool_decide (c = "e"%char) || bool_decide (c = "E"%char) then
        let '(neg, r1) := readSign r in
        let '(e, n, _) := readDigits r1 0 0 in
        match n with
        | O => 0
        | S _ => if neg then - e else e
        end
      else 0
  | EmptyString => 0
  end.

(** [m * 10 ^ e] as an exact rational. *)
Definition scale10 (m e : Z) : Q :=
  if 0 <=? e then inject_Z (m * 10 ^ e)
  else Qmake m (Z.to_pos (10 ^ (- e))).

(** The value of the longest prefix of the trimmed input that is a
    [StrDecimalLiteral]; [NaN] when there is none. *)
Definition parseFloat (s : string) : number :=
  let '(neg, s1) := readSign (JsString.trimStart s) in
  if JsString.startsWith "Infinity" s1 then Infinity neg
  else
    let '(i, ni, s2) := readDigits s1 0 0 in
    let '(m, nf, s3) :=
      match s2 with
      | String "."%char r => readDigits r i 0
      | _ => (i, O, s2)
      end in
    match ni, nf with
    | O, O => NaN
    | _, _ =>
        let v := scale10 m (readExponent s3 - Z.of_nat nf) in
        Fin (if neg then (- v)%Q else v)
    end.

(** [x.toFixed(2)] for magnitudes below 1e21: the closest multiple of
    1/100, the larger one on a tie. *)
Definition pad2 (z : Z) : string :=
  if z <? 10 then "0" +:+ JsString.ofZ z else JsString.ofZ z.

Definition toFixed2 (x : Q) : string :=
  let a := Qabs x in
  let n := Qfloor (a * 100 + (1 # 2))%Q in
  (if isNegative x then "-" else "") +:+
  JsString.ofZ (n / 100) +:+ "." +:+ pad2 (n mod 100).

(** [a - b]. *)
Definition sub (a b : number) : number :=
  match a, b with
  | NaN, _ | _, NaN => NaN
  | Infinity s, Infinity s' => if Bool.eqb s s' then NaN else Infinity s
  | Infinity s, Fin _ => Infinity s
  | Fin _, Infinity s => Infinity (negb s)
  | Fin x, Fin y => Fin (x - y)
  end.

(** [Math.round(a)]: the nearest integer, the larger one on a tie. *)
Definition round (a : number) : number :=
  match a with
  | Fin q => Fin (inject_Z (Qfloor (q + (1 # 2))%Q))
  | _ => a
  end.

(** The count read by [String.prototype.repeat]: the argument truncated
    toward zero, [NaN] counting as 0; [None] is the [RangeError] thrown
    for a negative or infinite count. *)
Definition repeatCount (a : number) : option nat :=
  match a with
  | NaN => Some O
  | Infinity _ => None
  | Fin q =>
      let n := Z.quot (Qnum q) (Zpos (Qden q)) in
      if n <? 0 then None else Some (Z.to_nat n)
  end.

(** [x.toFixed(1)] for a finite [x] of magnitude below 1e21. *)
Definition toFixed1 (x : Q) : string :=
  let a := Qabs x in
  let n := Qfloor (a * 10 + (1 # 2))%Q in
  (if isNegative x then "-" else "") +:+
  JsString.ofZ (n / 10) +:+ "." +:+ JsString.ofZ (n mod 10).

(** [a.toFixed(1)] for any number. *)
Definition toFixed1N (a : number) : string :=
  match a with
  | NaN => "NaN"
  | Infinity true => "-Infinity"
  | Infinity false => "Infinity"
  | Fin q => toFixed1 q
  end.

(** [Math.PI]: the double nearest to pi, as the rational it is. *)
Definition PI : Q := 884279719003555 # 281474976710656.

End JsNumber.

Export JsNumber(number, NaN, Infinity, Fin).

(** ** [Map]: insertion-ordered association lists *)

Module JsMap.
Section Ops.
Context {K V : Type} `{EqDecision K}.

Definition t : Type := list (K * V).

Definition empty : t := [].

(** [m.set(k, v)]: an existing key keeps its position. *)
Fixpoint set (m : t) (k : K) (v : V) : t :=
  match m with
  | [] => [(k, v)]
  | (k', v') :: r =>
      if decide (k' = k) then (k, v) :: r else (k', v') :: set r k v
  end.

(** [m.get(k)]: [None] stands for [undefined]. *)
Fixpoint get (m : t) (k : K) : option V :=
  match m with
  | [] => None
  | (k', v') :: r => if decide (k' = k) then Some v' else get r k
  end.

(** [Array.from(m.entries())]. *)
Definition entries (m : t) : list (K * V) := m.
End Ops.

Arguments t : clear implicits.
End JsMap.

(** ** [types.ts] *)

Inductive Category : Type :=
| Bills | Entertainment | Food | Shopping | Fuel | Groceries
| Health | Office | Travel | Transfer | Other.

#[global] Instance Category_eq_dec : EqDecision Category.
Proof. solve_decision. Defined.

Definition Categories : list Category :=
  [Bills; Entertainment; Food; Shopping; Fuel; Groceries;
   Health; Office; Travel; Transfer; Other].

Module Transaction.
Record t : Type := mk {
  id : string;
  cardId : string;
  merchant : string;
  amount : Q;
  date : string;
  category : Category
}.
End Transaction.

Module Card.
Record t : Type := mk {
  id : string;
  name : string;
  last4 : string;
  limit : number;
  gradient : string
}.
End Card.

Module ParsedSmsData.
Record t : Type := mk {
  merchant : string;
  amount : Q;
  cardLast4 : string;
  category : option Category
}.
End ParsedSmsData.

(** ** Dates *)

(** The two calendar fields the application reads from a [Date], in the
    local time zone. *)
Record JsDate : Type := { getMonth : Z; getFullYear : Z }.

(** [new Date(s)] for a date string [s]; [None] is the invalid date, whose
    fields are [NaN] and compare unequal to everything. *)
Class Locale : Type := newDate : string → option JsDate.

(** The readings of the clock taken by one handler run: [new Date()],
    [Date.now()] and [new Date().toISOString()]. *)
Record Clock : Type := {
  today : JsDate;
  nowMs : Z;
  nowIso : string
}.

(** [new Date(s).getTime()] for a date string [s]: the milliseconds since
    the epoch; [None] is the [NaN] of an invalid date. *)
Class Epoch : Type := getTime : string → option Z.

(** ** [App.tsx] *)

Module App.

Definition CATEGORY_CONFIG_color (c : Category) : string :=
  match c with
  | Bills => "bg-red-500"
  | Entertainment => "bg-pink-500"
  | Food => "bg-yellow-500"
  | Shopping => "bg-purple-500"
  | Fuel => "bg-orange-500"
  | Groceries => "bg-green-500"
  | Health => "bg-blue-500"
  | Office => "bg-indigo-500"
  | Travel => "bg-teal-500"
  | Transfer => "bg-gray-500"
  | Other => "bg-gray-400"
  end.

Record PieEntry : Type := {
  name : Category;
  value : Q;
  percentage : Q;
  color : string
}.

(** [a > b] on finite numbers. *)
Definition gtQ (a b : Q) : bool :=
  match (a ?= b)%Q with Gt => true | _ => false end.

(** [Array.prototype.sort] with a comparator: a stable insertion sort;
    [x] moves behind [y] exactly when [cmp x y > 0]. *)
Fixpoint insertBy {A : Type} (cmp : A → A → Q) (x : A) (l : list A) : list A :=
  match l with
  | [] => [x]
  | y :: r => if gtQ (cmp x y) 0 then y :: insertBy cmp x r else x :: y :: r
  end.

Definition sort {A : Type} (cmp : A → A → Q) (l : list A) : list A :=
  foldr (insertBy cmp) [] l.

(** [Array.prototype.findIndex]; -1 when no element satisfies [p]. *)
Fixpoint findIndexFrom {A : Type} (p : A → bool) (l : list A) (i : Z) : Z :=
  match l with
  | [] => -1
  | x :: r => if p x then i else findIndexFrom p r (i + 1)
  end.

Definition findIndex {A : Type} (p : A → bool) (l : list A) : Z :=
  findIndexFrom p l 0.

Section Aggregator.
Context `{Locale}.

(** [txDate.getMonth() === currentMonth && txDate.getFullYear() === currentYear]. *)
Definition inCurrentMonth (now : JsDate) (tx : Transaction.t) : bool :=
  match newDate (Transaction.date tx) with
  | Some txDate =>
      (getMonth txDate =? getMonth now) && (getFullYear txDate =? getFullYear now)
  | None => false
  end.

Definition monthlySummary (now : JsDate) (transactions : list Transaction.t)
  : list PieEntry * Q :=
  let summary0 : JsMap.t Category Q :=
    foldl (λ m cat, JsMap.set m cat 0%Q) JsMap.empty Categories in
  let '(summary, total) :=
    foldl (λ '(m, total) tx,
             if inCurrentMonth now tx then
               let currentTotal := JsNumber.orZero (JsMap.get m (Transaction.category tx)) in
               (JsMap.set m (Transaction.category tx) (currentTotal + Transaction.amount tx)%Q,
                (total + Transaction.amount tx)%Q)
             else (m, total))
          (summary0, 0%Q) transactions in
  let pieData :=
    sort (λ a b, (value b - value a)%Q)
      (List.map (λ '(category, amount),
                   {| name := category;
                      value := amount;
                      percentage := if gtQ total 0 then ((amount / total) * 100)%Q else 0%Q;
                      color := CATEGORY_CONFIG_color category |})
         (List.filter (λ '(_, amount), gtQ amount 0) (JsMap.entries summary))) in
  (pieData, total).

Definition cardExpenses (now : JsDate) (cards : list Card.t)
    (transactions : list Transaction.t) : JsMap.t string Q :=
  let expenses0 : JsMap.t string Q :=
    foldl (λ m card, JsMap.set m (Card.id card) 0%Q) JsMap.empty cards in
  foldl (λ m tx,
           if inCurrentMonth now tx then
             let currentTotal := JsNumber.orZero (JsMap.get m (Transaction.cardId tx)) in
             JsMap.set m (Transaction.cardId tx) (currentTotal + Transaction.amount tx)%Q
           else m)
        expenses0 transactions.
End Aggregator.

(** *** Store updates *)

Record State : Type := {
  cards : list Card.t;
  transactions : list Transaction.t;
  sentNotifications : gmap string bool;
  notificationPermission : string;
  smsInput : string;
  isLoading : bool;
  error : option string;
  successMessage : option string
}.

(** Modelled from the spec: the hook [useLocalStorage]
    (hooks/useLocalStorage.ts is not among the sources) holds the card
    list of the Store; its setter stores the value it is given. *)
Definition setCards (v : list Card.t) (st : State) : State :=
  {| cards := v; transactions := transactions st;
     sentNotifications := sentNotifications st;
     notificationPermission := notificationPermission st;
     smsInput := smsInput st; isLoading := isLoading st;
     error := error st; successMessage := successMessage st |}.

(** Modelled from the spec: the hook [useLocalStorage] holds the
    transaction list of the Store; its setter, handed an updater, applies
    it to the latest list, as the setter of [useState] does. *)
Definition setTransactions (f : list Transaction.t → list Transaction.t)
    (st : State) : State :=
  {| cards := cards st; transactions := f (transactions st);
     sentNotifications := sentNotifications st;
     notificationPermission := notificationPermission st;
     smsInput := smsInput st; isLoading := isLoading st;
     error := error st; successMessage := successMessage st |}.


Definition setSmsInput (v : string) (st : State) : State :=
  {| cards := cards st; transactions := transactions st;
     sentNotifications := sentNotifications st;
     notificationPermission := notificationPermission st;
     smsInput := v; isLoading := isLoading st;
     error := error st; successMessage := successMessage st |}.

Definition setIsLoading (v : bool) (st : State) : State :=
  {| cards := cards st; transactions := transactions st;
     sentNotifications := sentNotifications st;
     notificationPermission := notificationPermission st;
     smsInput := smsInput st; isLoading := v;
     error := error st; successMessage := successMessage st |}.

(** [showTemporaryMessage(setError, message)] and [setError(null)]. *)
Definition setError (v : option string) (st : State) : State :=
  {| cards := cards st; transactions := transactions st;
     sentNotifications := sentNotifications st;
     notificationPermission := notificationPermission st;
     smsInput := smsInput st; isLoading := isLoading st;
     error := v; successMessage := successMessage st |}.

(** [showTemporaryMessage(setSuccessMessage, message)] and
    [setSuccessMessage(null)]. *)
Definition setSuccessMessage (v : option string) (st : State) : State :=
  {| cards := cards st; transactions := transactions st;
     sentNotifications := sentNotifications st;
     notificationPermission := notificationPermission st;
     smsInput := smsInput st; isLoading := isLoading st;
     error := error st; successMessage := v |}.

Definition handleSaveCard (card : Card.t) (st : State) : State :=
  let cardIndex :=
    findIndex (λ c, JsString.eqb (Card.id c) (Card.id card)) (cards st) in
  if -1 <? cardIndex then
    setCards (<[Z.to_nat cardIndex := card]> (cards st)) st
  else
    setCards (cards st ++ [card]) st.

(** The argument of [handleSaveTransaction], of type
    [Partial<Transaction> & { cardId; merchant; amount; category }]:
    the two properties that may be absent are options. *)
Record SaveData : Type := {
  data_id : option string;
  data_date : option string;
  data_cardId : string;
  data_merchant : string;
  data_amount : Q;
  data_category : Category
}.

(** [{ ...tx, ...data }]. *)
Definition spread (tx : Transaction.t) (data : SaveData) : Transaction.t :=
  {| Transaction.id := default (Transaction.id tx) (data_id data);
     Transaction.cardId := data_cardId data;
     Transaction.merchant := data_merchant data;
     Transaction.amount := data_amount data;
     Transaction.date := default (Transaction.date tx) (data_date data);
     Transaction.category := data_category data |}.

(** [cards.find(c => c.id === data.cardId)?.name || 'card']. *)
Definition cardNameOr (cardId : string) (cards : list Card.t) : string :=
  match List.find (λ c, JsString.eqb (Card.id c) cardId) cards with
  | Some c => if JsString.truthy (Card.name c) then Card.name c else "card"
  | None => "card"
  end.

(** The value of [data.id] when it passes the test [if (data.id)]: a
    present, non-empty identifier. *)
Definition truthyId (o : option string) : option string :=
  match o with
  | Some s => if JsString.truthy s then Some s else None
  | None => None
  end.

Definition handleSaveTransaction (clock : Clock) (data : SaveData) (st : State) : State :=
  match truthyId (data_id data) with
  | Some editedId =>
      (* Editing existing transaction *)
      let st1 :=
        setTransactions
          (λ prev, List.map (λ tx, if JsString.eqb (Transaction.id tx) editedId
                                   then spread tx data else tx) prev) st in
      setSuccessMessage
        (Some ("Updated transaction for " +:+ data_merchant data +:+ ".")) st1
  | None =>
      (* Adding new transaction *)
      let newTransaction :=
        {| Transaction.id := "tx-" +:+ JsString.ofZ (nowMs clock);
           Transaction.cardId := data_cardId data;
           Transaction.merchant := data_merchant data;
           Transaction.amount := data_amount data;
           Transaction.date := nowIso clock;
           Transaction.category := data_category data |} in
      let st1 := setTransactions (λ prev, prev ++ [newTransaction]) st in
      let cardName := cardNameOr (data_cardId data) (cards st) in
      setSuccessMessage
        (Some ("Added $" +:+ JsNumber.toFixed2 (data_amount data)
               +:+ " expense to " +:+ cardName +:+ ".")) st1
  end.

Definition handleDeleteTransaction (confirmed : bool) (transactionId : string)
    (st : State) : State :=
  if confirmed then
    setSuccessMessage (Some "Transaction deleted.")
      (setTransactions
         (λ prev, List.filter (λ tx, negb (JsString.eqb (Transaction.id tx) transactionId)) prev)
         st)
  else st.

(** *** SMS ingestion *)

(** [parseSmsExpense] of [services/geminiService.ts].  [generateContent]
    stands for the remote call followed by [JSON.parse]; [None] is a
    thrown error.  A decoded object is returned only when its merchant
    and card digits are truthy (its amount is a number by its type). *)
Definition parseSmsExpense (generateContent : string → option ParsedSmsData.t)
    (sms : string) : option ParsedSmsData.t :=
  match generateContent sms with
  | Some parsedData =>
      if JsString.truthy (ParsedSmsData.merchant parsedData)
         && JsString.truthy (ParsedSmsData.cardLast4 parsedData)
      then Some parsedData else None
  | None => None
  end.

(** The part of [handleParseSms] that runs once the awaited call to
    [parseSmsExpense] has settled with [result]. *)
Definition handleParseSms_settled (clock : Clock) (result : option ParsedSmsData.t)
    (st : State) : State :=
  let st2 := setIsLoading false st in
  match result with
  | Some result =>
      match List.find (λ c, JsString.eqb (Card.last4 c) (ParsedSmsData.cardLast4 result))
                      (cards st2) with
      | Some matchingCard =>
          setSmsInput ""
            (handleSaveTransaction clock
               {| data_id := None;
                  data_date := None;
                  data_cardId := Card.id matchingCard;
                  data_merchant := ParsedSmsData.merchant result;
                  data_amount := ParsedSmsData.amount result;
                  data_category := default Other (ParsedSmsData.category result) |}
               st2)
      | None =>
          setError
            (Some ("Could not find a card ending in "
                   +:+ ParsedSmsData.cardLast4 result +:+ ".")) st2
      end
  | None =>
      setError (Some "Failed to parse SMS. Please try a different format.") st2
  end.

Definition handleParseSms (generateContent : string → option ParsedSmsData.t)
    (clock : Clock) (st : State) : State :=
  if negb (JsString.truthy (JsString.trim (smsInput st))) then
    setError (Some "SMS message cannot be empty.") st
  else if bool_decide (length (cards st) = 0%nat) then
    setError (Some "Please add a credit card first.") st
  else
    let st1 := setSuccessMessage None (setError None (setIsLoading true st)) in
    handleParseSms_settled clock (parseSmsExpense generateContent (smsInput st)) st1.

(** *** Spending notifications *)

Definition thresholds : list Z := [30; 50; 85].

(** [card.limit > 0 ? (spent / card.limit) * 100 : 0]. *)
Definition percentageOf (card : Card.t) (spent : Q) : number :=
  if JsNumber.gt (Card.limit card) (JsNumber.ofZ 0)
  then JsNumber.mul (JsNumber.div (Fin spent) (Card.limit card)) (JsNumber.ofZ 100)
  else JsNumber.ofZ 0.

Definition notificationKey (card : Card.t) (now : JsDate) (threshold : Z) : string :=
  Card.id card +:+ "-" +:+ JsString.ofZ (getFullYear now)
    +:+ "-" +:+ JsString.ofZ (getMonth now)
    +:+ "-" +:+ JsString.ofZ threshold.

(** One pass through the body of the innermost [if]: the notification
    handed to [sendSpendingNotification] together with the key of the
    queued [setSentNotifications] update. *)
Record Alert : Type := {
  alertCard : Card.t;
  alertPercentage : number;
  alertKey : string
}.

(** [!sentNotifications[notificationKey]]. *)
Definition notSent (sent : gmap string bool) (key : string) : bool :=
  negb (default false (sent !! key)).

(** The alerts of one run of the effect, in the order they are sent. *)
Definition spendingAlerts (now : JsDate) (cards : list Card.t)
    (expenses : JsMap.t string Q) (permission : string)
    (sent : gmap string bool) : list Alert :=
  if negb (JsString.eqb permission "granted") then []
  else
    flat_map
      (λ card,
         let spent := JsNumber.orZero (JsMap.get expenses (Card.id card)) in
         let percentage := percentageOf card spent in
         flat_map
           (λ threshold,
              let key := notificationKey card now threshold in
              if JsNumber.ge percentage (JsNumber.ofZ threshold) && notSent sent key
              then [ {| alertCard := card; alertPercentage := percentage;
                        alertKey := key |} ]
              else [])
           thresholds)
      cards.

(** The queued updates [prev => ({ ...prev, [key]: true })], applied in order. *)
Definition recordSent (alerts : list Alert) (sent : gmap string bool)
  : gmap string bool :=
  foldl (λ prev a, <[alertKey a := true]> prev) sent alerts.

Section Notifier.
Context `{Locale}.

End Notifier.

(** *** The pie chart *)

(** One [<circle>] of the chart: its stroke class, the two numbers of
    [strokeDasharray] and [strokeDashoffset]. *)
Record Arc : Type := {
  strokeClass : string;
  dashLength : Q;
  dashGap : Q;
  strokeDashoffset : Q
}.

(** [s.replace(pattern, replacement)] for a string pattern: the first
    occurrence is replaced. *)
Fixpoint replaceFirst (pattern replacement s : string) : string :=
  if JsString.startsWith pattern s then
    replacement +:+ String.substring (String.length pattern)
                      (String.length s - String.length pattern) s
  else
    match s with
    | String c r => String c (replaceFirst pattern replacement r)
    | EmptyString => EmptyString
    end.

Definition radius : Q := 50.

Definition circumference : Q := 2 * JsNumber.PI * radius.

(** The body of [data.map] in [PieChart]; [accumulatedOffset] is the
    variable the callback advances. *)
Fixpoint arcs (total : Q) (accumulatedOffset : Q) (data : list PieEntry) : list Arc :=
  match data with
  | [] => []
  | entry :: rest =>
      let percentage := (value entry / total)%Q in
      let offset := ((accumulatedOffset / total) * circumference)%Q in
      {| strokeClass := replaceFirst "bg-" "stroke-" (color entry);
         dashLength := (circumference * percentage)%Q;
         dashGap := circumference;
         strokeDashoffset := (- offset)%Q |}
      :: arcs total (accumulatedOffset + value entry)%Q rest
  end.

(** [PieChart]: [None] is the grey disc drawn when the values sum to 0. *)
Definition PieChart (data : list PieEntry) : option (list Arc) :=
  let total := foldl (λ acc entry, (acc + value entry)%Q) 0%Q data in
  if JsNumber.isZero total then None else Some (arcs total 0%Q data).

(** *** The transaction listing *)

Section Listing.
Context `{Epoch}.

(** [new Date(b.date).getTime() - new Date(a.date).getTime()], read by
    [sort] as +0 when it is [NaN]. *)
Definition byDateDescending (a b : Transaction.t) : Q :=
  match getTime (Transaction.date b), getTime (Transaction.date a) with
  | Some tb, Some ta => inject_Z (tb - ta)
  | _, _ => 0%Q
  end.

Definition filteredTransactions (transactions : list Transaction.t)
    (selectedCardFilter : string) : list Transaction.t :=
  let sorted := sort byDateDescending transactions in
  if JsString.eqb selectedCardFilter "all" then sorted
  else List.filter (λ tx, JsString.eqb (Transaction.cardId tx) selectedCardFilter) sorted.
End Listing.

(** *** The card stack *)

Record DragInfo : Type := {
  isDragging : bool;
  startX : Q;
  dragOffset : Q
}.

(** The state of the card stack: [activeCardIndex] and [dragInfo]. *)
Record Stack : Type := {
  activeCardIndex : Z;
  dragInfo : DragInfo
}.

(** The effect on [cards.length]. *)
Definition showLastCard (cardsLength : Z) (st : Stack) : Stack :=
  if 0 <? cardsLength
  then {| activeCardIndex := cardsLength - 1; dragInfo := dragInfo st |}
  else st.

(** [handleDragStart] and [handleTouchStart], which differ in where they
    read [pageX]. *)
Definition handleDragStart (cardsLength : Z) (pageX : Q) (st : Stack) : Stack :=
  if cardsLength <=? 1 then st
  else {| activeCardIndex := activeCardIndex st;
          dragInfo := {| isDragging := true; startX := pageX; dragOffset := 0 |} |}.

(** [handleDragMove] and [handleTouchMove]. *)
Definition handleDragMove (pageX : Q) (st : Stack) : Stack :=
  if negb (isDragging (dragInfo st)) then st
  else {| activeCardIndex := activeCardIndex st;
          dragInfo := {| isDragging := isDragging (dragInfo st);
                         startX := startX (dragInfo st);
                         dragOffset := (pageX - startX (dragInfo st))%Q |} |}.

Definition dragThreshold : Q := 80.

Definition handleDragEnd (cardsLength : Z) (st : Stack) : Stack :=
  let prev := dragInfo st in
  let i := activeCardIndex st in
  {| activeCardIndex :=
       if gtQ (- dragThreshold) (dragOffset prev) then Z.min (cardsLength - 1) (i + 1)
       else if gtQ (dragOffset prev) dragThreshold then Z.max 0 (i - 1)
       else i;
     dragInfo := {| isDragging := false; startX := 0; dragOffset := 0 |} |}.

(** *** The progress bar and the notification *)

Definition getProgressBarColor (percentage : number) : string :=
  if JsNumber.gt percentage (JsNumber.ofZ 85) then "bg-red-500"
  else if JsNumber.gt percentage (JsNumber.ofZ 50) then "bg-yellow-500"
  else if JsNumber.gt percentage (JsNumber.ofZ 30) then "bg-blue-500"
  else "bg-green-500".

(** The two block characters of the textual bar. *)
Inductive Block : Type := Filled | Blank.

(** The text built by [createProgressBar]: an opening bracket, the
    blocks, a closing bracket, a space and the caption. *)
Record ProgressBar : Type := {
  blocks : list Block;
  caption : string
}.

(** [createProgressBar]; [None] is the [RangeError] of a [repeat] with a
    negative or infinite count. *)
Definition createProgressBar (percentage : number) : option ProgressBar :=
  let filledBlocks :=
    JsNumber.round (JsNumber.mul (JsNumber.div percentage (JsNumber.ofZ 100))
                                 (JsNumber.ofZ 10)) in
  let emptyBlocks := JsNumber.sub (JsNumber.ofZ 10) filledBlocks in
  match JsNumber.repeatCount filledBlocks, JsNumber.repeatCount emptyBlocks with
  | Some filled, Some empty =>
      Some {| blocks := replicate filled Filled ++ replicate empty Blank;
              caption := JsNumber.toFixed1N percentage +:+ "% Used" |}
  | _, _ => None
  end.

(** The arguments handed to [new Notification]. *)
Record Notification : Type := {
  title : string;
  bodyText : string;
  bodyBar : ProgressBar;
  silent : bool
}.

(** [sendSpendingNotification]; [None] when [createProgressBar] throws,
    before the notification is made. *)
Definition sendSpendingNotification (card : Card.t) (percentage : number)
  : option Notification :=
  match createProgressBar percentage with
  | Some progressBar =>
      Some {| title := "Spending Alert: " +:+ Card.name card;
              bodyText := "You've used " +:+ JsNumber.toFixed1N percentage
                          +:+ "% of your limit.";
              bodyBar := progressBar;
              silent := true |}
  | None => None
  end.

(** The calls to [sendSpendingNotification] of one run of the effect,
    for the alerts that are due, in order: the notifications made before
    the first call that throws, and whether the run came to its end. *)
Fixpoint notifications (alerts : list Alert) : list Notification * bool :=
  match alerts with
  | [] => ([], true)
  | a :: rest =>
      match sendSpendingNotification (alertCard a) (alertPercentage a) with
      | Some n => let '(made, completed) := notifications rest in (n :: made, completed)
      | None => ([], false)
      end
  end.

End App.

(** ** [components/AddCardModal.tsx] *)

Module AddCardModal.

Definition gradients : list string :=
  ["from-blue-400 to-purple-500";
   "from-green-400 to-blue-500";
   "from-pink-500 to-orange-400";
   "from-indigo-500 to-purple-600";
   "from-teal-400 to-cyan-500";
   "from-rose-400 to-pink-500"].

(** Consumes [n] characters matching [\d]; [None] when one is missing. *)
Fixpoint matchDigits (n : nat) (s : string) : option string :=
  match n with
  | O => Some s
  | S n' =>
      match s with
      | String c r => if JsString.isDigit c then matchDigits n' r else None
      | EmptyString => None
      end
  end.

(** [/^\d{4}$/.test(s)]. *)
Definition testFourDigits (s : string) : bool :=
  match matchDigits 4 s with
  | Some EmptyString => true
  | _ => false
  end.

(** What a submission does: show an error and keep the modal open, or
    call [onSaveCard] and close. *)
Inductive Outcome : Type :=
| Rejected (error : string)
| Saved (card : Card.t).

(** [card.id !== cardToEdit?.id]. *)
Definition otherThanEdited (cardToEdit : option Card.t) (card : Card.t) : bool :=
  match cardToEdit with
  | Some edited => negb (JsString.eqb (Card.id card) (Card.id edited))
  | None => true
  end.

(** The form state ([name], [last4], [limit]) and the props read by
    [handleSubmit]; [pick] is
    [Math.floor(Math.random() * gradients.length)]. *)
Definition handleSubmit (clock : Clock) (pick : nat)
    (cardToEdit : option Card.t) (cards : list Card.t)
    (name last4 limit : string) : Outcome :=
  let trimmedName := JsString.trim name in
  if negb (JsString.truthy trimmedName) || negb (JsString.truthy last4)
     || negb (JsString.truthy limit) then
    Rejected "All fields are required."
  else if negb (testFourDigits last4) then
    Rejected "Last 4 digits must be exactly 4 numbers."
  else if JsNumber.le (JsNumber.parseFloat limit) (JsNumber.ofZ 0) then
    Rejected "Limit must be a positive number."
  else
    let nameExists :=
      existsb (λ card, otherThanEdited cardToEdit card
                       && JsString.eqb (JsString.toLowerCase (JsString.trim (Card.name card)))
                                       (JsString.toLowerCase trimmedName)) cards in
    if nameExists then Rejected "A card with this name already exists."
    else
      let last4Exists :=
        existsb (λ card, otherThanEdited cardToEdit card
                         && JsString.eqb (Card.last4 card) last4) cards in
      if last4Exists then Rejected "A card with these last 4 digits already exists."
      else
        Saved {| Card.id := match cardToEdit with
                            | Some edited => Card.id edited
                            | None => "card-" +:+ JsString.ofZ (nowMs clock)
                            end;
                 Card.name := trimmedName;
                 Card.last4 := last4;
                 Card.limit := JsNumber.parseFloat limit;
                 Card.gradient := match cardToEdit with
                                  | Some edited => Card.gradient edited
                                  | None => default "" (gradients !! pick)
                                  end |}.

(** The [onChange] handler of the digits field:
    [e.target.value.replace(/\D/g, '').slice(0, 4)]. *)
Definition sanitizeLast4 (value : string) : string :=
  String.string_of_list_ascii
    (take 4 (List.filter JsString.isDigit (String.list_ascii_of_string value))).

End AddCardModal.

(** ** [components/AddTransactionModal.tsx] *)

Module AddTransactionModal.


(** The object handed to [onSaveTransaction]. *)
Record Submission : Type := {
  id : option string;
  cardId : string;
  merchant : string;
  amount : number;
  category : Category
}.

Inductive Outcome : Type :=
| Rejected (error : string)
| Submitted (data : Submission).

(** [handleSubmit] on the form state ([cardId], [merchant], [amount],
    [category]) and the record being edited, if any. *)
Definition handleSubmit (transactionToEdit : option Transaction.t)
    (cardId merchant amount : string) (category : Category) : Outcome :=
  if negb (JsString.truthy cardId) || negb (JsString.truthy merchant)
     || negb (JsString.truthy amount) then
    Rejected "All fields are required."
  else
    let numericAmount := JsNumber.parseFloat amount in
    if JsNumber.isNaN numericAmount || JsNumber.le numericAmount (JsNumber.ofZ 0) then
      Rejected "Amount must be a positive number."
    else
      Submitted {| id := Transaction.id <$> transactionToEdit;
                   cardId := cardId;
                   merchant := merchant;
                   amount := numericAmount;
                   category := category |}.

(** The call [onSaveTransaction(data)] as [handleSaveTransaction] reads
    it, for a finite amount: no date is handed over. *)
Definition saveData (data : Submission) (finiteAmount : Q) : App.SaveData :=
  {| App.data_id := id data;
     App.data_date := None;
     App.data_cardId := cardId data;
     App.data_merchant := merchant data;
     App.data_amount := finiteAmount;
     App.data_category := category data |}.

End AddTransactionModal.

(** ** Sample data *)

Module Samples.

(** A locale for the examples: the UTC reading of an ISO date string
    [YYYY-MM-...], with months counted from zero. *)
Definition isoUtc : Locale := λ s,
  match s with
  | String y1 (String y2 (String y3 (String y4
      (String "-"%char (String m1 (String m2 _)))))) =>
      if forallb JsString.isDigit [y1; y2; y3; y4; m1; m2] then
        let d := JsString.digitValue in
        Some {| getMonth := 10 * d m1 + d m2 - 1;
                getFullYear := 1000 * d y1 + 100 * d y2 + 10 * d y3 + d y4 |}
      else None
  | _ => None
  end.

Definition june2024 : JsDate := {| getMonth := 5; getFullYear := 2024 |}.

Definition clock : Clock :=
  {| today := june2024; nowMs := 1718000000000; nowIso := "2024-06-10T06:13:20.000Z" |}.

Definition visa : Card.t :=
  Card.mk "card-1" "Visa Gold" "0427" (JsNumber.ofZ 1000) "from-blue-400 to-purple-500".

Definition amex : Card.t :=
  Card.mk "card-2" "Amex" "9876" (JsNumber.ofZ 5000) "from-green-400 to-blue-500".

Definition tx (id cardId : string) (amount : Q) (date : string) (cat : Category)
  : Transaction.t :=
  Transaction.mk id cardId "Shop" amount date cat.

Definition store (cards : list Card.t) (txs : list Transaction.t) : App.State :=
  {| App.cards := cards; App.transactions := txs;
     App.sentNotifications := ∅;
     App.notificationPermission := "granted";
     App.smsInput := "Spent 12.00 at Shop, card ending 1111";
     App.isLoading := false; App.error := None; App.successMessage := None |}.

End Samples.

(** * Vocabulary of the properties *)

(** ** Store and card editor *)

(** Everything but the card list is left alone by [handleSaveCard]. *)
Definition sameButCards (st st' : App.State) : Prop :=
  App.transactions st' = App.transactions st
  ∧ App.sentNotifications st' = App.sentNotifications st
  ∧ App.notificationPermission st' = App.notificationPermission st
  ∧ App.smsInput st' = App.smsInput st
  ∧ App.isLoading st' = App.isLoading st
  ∧ App.error st' = App.error st
  ∧ App.successMessage st' = App.successMessage st.

(** The ten characters matched by [\d]. *)
Definition digitChars : list ascii :=
  ["0"; "1"; "2"; "3"; "4"; "5"; "6"; "7"; "8"; "9"]%char.

(** A string that starts clean: it is empty or its first character is
    not white space. *)
Definition startsClean (s : string) : Prop :=
  match s with
  | EmptyString => True
  | String c _ => JsString.isWhiteSpace c = false
  end.

(** The name entered clashes with the name of [card]: after trimming,
    the two are equal up to case.  The stored name is compared as it is
    or trimmed; both readings select the same cards. *)
Definition nameClash (name : string) (card : Card.t) : Prop :=
  JsString.toLowerCase (JsString.trim name) = JsString.toLowerCase (Card.name card)
  ∨ JsString.toLowerCase (JsString.trim name)
    = JsString.toLowerCase (JsString.trim (Card.name card)).

(** [card] is another record than the one being edited. *)
Definition differentId (cardToEdit : option Card.t) (card : Card.t) : Prop :=
  ∀ edited : Card.t, cardToEdit = Some edited → Card.id card ≠ Card.id edited.

(** The entered fields are all present, the digits are four digits and
    the limit is not found to be zero or negative: the three checks that
    precede the uniqueness checks. *)
Definition fieldChecks (name last4 limit : string) : bool :=
  JsString.truthy (JsString.trim name) && JsString.truthy last4
  && JsString.truthy limit && AddCardModal.testFourDigits last4
  && negb (JsNumber.le (JsNumber.parseFloat limit) (JsNumber.ofZ 0)).

(** ** Monthly sums *)

(** The sum of a list of amounts. *)
Definition sumQ (l : list Q) : Q := foldr Qplus 0%Q l.

Section GroupedSpend.
Context `{Locale} {K : Type} `{EqDecision K} (key : Transaction.t → K).

(** The transactions dated in the month and year of [now] whose key is [k]. *)
Definition groupOfMonth (now : JsDate) (k : K) (transactions : list Transaction.t)
  : list Transaction.t :=
  List.filter (λ tx, App.inCurrentMonth now tx && bool_decide (key tx = k)) transactions.

(** The sum of their amounts. *)
Definition groupSpend (now : JsDate) (k : K) (transactions : list Transaction.t) : Q :=
  sumQ (Transaction.amount <$> groupOfMonth now k transactions).

(** One iteration of the loops of [cardExpenses] and [monthlySummary]
    over the transactions, on the map alone. *)
Definition groupStep (now : JsDate) (m : JsMap.t K Q) (tx : Transaction.t) : JsMap.t K Q :=
  if App.inCurrentMonth now tx then
    JsMap.set m (key tx) (JsNumber.orZero (JsMap.get m (key tx)) + Transaction.amount tx)%Q
  else m.
End GroupedSpend.

Section MonthlySpend.
Context `{Locale}.

(** The monthly spend of a card, in the words of the specification: the
    sum of [amount] over the transactions with that [cardId] whose date
    falls in the current month and year. *)
Definition monthlySpend (now : JsDate) (cardId : string)
    (transactions : list Transaction.t) : Q :=
  sumQ (Transaction.amount <$>
        List.filter (λ tx, App.inCurrentMonth now tx
                           && bool_decide (Transaction.cardId tx = cardId)) transactions).


(** One iteration of the loop of [monthlySummary]. *)
Definition summaryStep (now : JsDate)
  : JsMap.t Category Q * Q → Transaction.t → JsMap.t Category Q * Q :=
  λ '(m, total) tx,
  if App.inCurrentMonth now tx then
    (JsMap.set m (Transaction.category tx)
       (JsNumber.orZero (JsMap.get m (Transaction.category tx)) + Transaction.amount tx)%Q,
     (total + Transaction.amount tx)%Q)
  else (m, total).
End MonthlySpend.


(** The map the loop of [monthlySummary] starts from. *)
Definition summary0 : JsMap.t Category Q :=
  foldl (λ m cat, JsMap.set m cat 0%Q) JsMap.empty Categories.

(** The row of the summary built from an entry of the map. *)
Definition pieEntry (total : Q) (entry : Category * Q) : App.PieEntry :=
  let '(category, amount) := entry in
  {| App.name := category;
     App.value := amount;
     App.percentage := if App.gtQ total 0 then ((amount / total) * 100)%Q else 0%Q;
     App.color := App.CATEGORY_CONFIG_color category |}.

(** ** Runs of the notifier *)




(** A card with limit 1000 and 250 spent this month; then a purchase of
    70 is added, which brings the spend to 320. *)
Definition spent250 : App.State :=
  Samples.store [Samples.visa]
    [Samples.tx "tx-1" "card-1" 250 "2024-06-01T10:00:00.000Z" Shopping].

Definition purchase70 : App.SaveData :=
  {| App.data_id := None; App.data_date := None;
     App.data_cardId := "card-1"; App.data_merchant := "Cafe";
     App.data_amount := 70; App.data_category := Food |}.


(** ** Further vocabulary *)

(** The value read from the monthly card summary with [|| 0]. *)
Definition spentOn `{Locale} (now : JsDate) (st : App.State) (cardId : string) : Q :=
  JsNumber.orZero
    (JsMap.get (App.cardExpenses now (App.cards st) (App.transactions st)) cardId).

(** The record [handleSaveTransaction] makes of a save without
    identifier. *)
Definition newTransaction (clock : Clock) (data : App.SaveData) : Transaction.t :=
  {| Transaction.id := "tx-" +:+ JsString.ofZ (nowMs clock);
     Transaction.cardId := App.data_cardId data;
     Transaction.merchant := App.data_merchant data;
     Transaction.amount := App.data_amount data;
     Transaction.date := nowIso clock;
     Transaction.category := App.data_category data |}.

(** The name of a card as the uniqueness check reads it. *)
Definition nameKey (card : Card.t) : string :=
  JsString.toLowerCase (JsString.trim (Card.name card)).



(** The pointer events of the card stack. *)
Inductive Gesture : Type :=
| Press (pageX : Q)
| Move (pageX : Q)
| Release.

Definition gesture (cardsLength : Z) (st : App.Stack) (g : Gesture) : App.Stack :=
  match g with
  | Press x => App.handleDragStart cardsLength x st
  | Move x => App.handleDragMove x st
  | Release => App.handleDragEnd cardsLength st
  end.

(** The time of a transaction, 0 standing in for an invalid date. *)
Definition timeOf `{Epoch} (tx : Transaction.t) : Z :=
  default 0 (getTime (Transaction.date tx)).

(** The date of the transaction can be read. *)
Definition dated `{Epoch} (tx : Transaction.t) : Prop :=
  is_Some (getTime (Transaction.date tx)).

(** A sample clock reading: the digits of an ISO date string, glued. *)
Definition isoDigits : Epoch := λ s,
  let ds := List.filter JsString.isDigit (String.list_ascii_of_string s) in
  match ds with
  | [] => None
  | _ => Some (foldl (λ acc c, 10 * acc + JsString.digitValue c) 0 ds)
  end.

(** * Properties *)

(** ** The model at work *)

Example parseFloat_samples :
  JsNumber.parseFloat "  12.50abc" = Fin (1250 # 100)
  ∧ JsNumber.parseFloat "-.5e1" = Fin (- inject_Z 5)
  ∧ JsNumber.parseFloat "1e-2" = Fin (1 # 100)
  ∧ JsNumber.parseFloat "5." = Fin (inject_Z 5)
  ∧ JsNumber.parseFloat "+Infinity" = Infinity false
  ∧ JsNumber.parseFloat "." = NaN
  ∧ JsNumber.parseFloat "" = NaN.
Proof. repeat split. Qed.

Example string_samples :
  JsString.trim "  Chase Freedom  " = "Chase Freedom"
  ∧ JsString.toLowerCase "Chase FREEDOM" = "chase freedom"
  ∧ JsNumber.toFixed2 (4550 # 100) = "45.50"
  ∧ JsString.ofZ 1718000000000 = "1718000000000".
Proof. repeat split. Qed.

Example isoUtc_samples :
  Samples.isoUtc "2024-06-10T06:13:20.000Z" = Some Samples.june2024
  ∧ Samples.isoUtc "yesterday" = None.
Proof. split; reflexivity. Qed.

(** Rows of equal value keep the order of the categories. *)
Example monthlySummary_sample :
  App.name <$>
    (@App.monthlySummary Samples.isoUtc Samples.june2024
       [Samples.tx "tx-1" "card-1" 40 "2024-06-01T10:00:00.000Z" Health;
        Samples.tx "tx-2" "card-1" 60 "2024-06-02T10:00:00.000Z" Food;
        Samples.tx "tx-3" "card-1" 40 "2024-06-03T10:00:00.000Z" Fuel]).1
  = [Food; Fuel; Health].
Proof. reflexivity. Qed.

(** ** Upsert of a card by identifier *)

Section SaveCard.
Context {A : Type} (p : A → bool).

(** [findIndexFrom] either finds no element and answers -1, or answers
    the offset of the first element that satisfies the predicate. *)
Lemma findIndexFrom_spec (l : list A) (i : Z) :
  0 <= i →
  (App.findIndexFrom p l i = -1 ∧ Forall (λ x, p x = false) l)
  ∨ (∃ (k : nat) (x : A),
        App.findIndexFrom p l i = i + Z.of_nat k
        ∧ l !! k = Some x ∧ p x = true
        ∧ ∀ (j : nat) (y : A), (j < k)%nat → l !! j = Some y → p y = false).
Proof.
  revert i. induction l as [|a l IH]; intros i Hi; simpl.
  - left. split; [reflexivity | constructor].
  - destruct (p a) eqn:Hpa.
    + right. exists 0%nat, a. repeat split; [lia | assumption |].
      intros j y Hj. lia.
    + destruct (IH (i + 1) ltac:(lia)) as [[Hm Hall] | (k & x & Hk & Hx & Hpx & Hmin)].
      * left. split; [assumption | constructor; assumption].
      * right. exists (S k), x. repeat split; [lia | assumption | assumption |].
        intros [|j] y Hj Hy; simpl in Hy.
        -- congruence.
        -- apply (Hmin j); [lia | assumption].
Qed.
End SaveCard.

Lemma JsString_eqb_true (a b : string) : JsString.eqb a b = true ↔ a = b.
Proof. unfold JsString.eqb. rewrite bool_decide_eq_true. reflexivity. Qed.

Lemma JsString_eqb_false (a b : string) : JsString.eqb a b = false ↔ a ≠ b.
Proof. unfold JsString.eqb. rewrite bool_decide_eq_false. reflexivity. Qed.

(** C10. Saving a card is an upsert by identifier.  When some card of the
    list carries the saved identifier, the first such card is replaced
    where it stands: the length is kept and every other position holds
    the card it held before.  When no card carries it, the saved card is
    appended and the length grows by one.  Nothing else in the store is
    touched. *)
Theorem handleSaveCard_upsert (card : Card.t) (st : App.State) :
  let cards' := App.cards (App.handleSaveCard card st) in
  (∀ (i : nat) (c : Card.t),
      App.cards st !! i = Some c →
      Card.id c = Card.id card →
      (∀ (j : nat) (c' : Card.t),
          (j < i)%nat → App.cards st !! j = Some c' → Card.id c' ≠ Card.id card) →
      length cards' = length (App.cards st)
      ∧ cards' !! i = Some card
      ∧ ∀ j : nat, j ≠ i → cards' !! j = App.cards st !! j)
  ∧ ((∀ c : Card.t, c ∈ App.cards st → Card.id c ≠ Card.id card) →
      cards' = App.cards st ++ [card]
      ∧ length cards' = S (length (App.cards st)))
  ∧ sameButCards st (App.handleSaveCard card st).
Proof.
  intros cards'. subst cards'. unfold App.handleSaveCard, App.findIndex.
  set (p := λ c : Card.t, JsString.eqb (Card.id c) (Card.id card)).
  destruct (findIndexFrom_spec p (App.cards st) 0 ltac:(lia))
    as [[Hm Hall] | (k & x & Hk & Hx & Hpx & Hmin)].
  - rewrite Hm. simpl. split; [| split].
    + intros i c Hi Hid _. exfalso.
      rewrite Forall_forall in Hall.
      assert (Hc : c ∈ App.cards st) by (apply list_elem_of_lookup; eauto).
      specialize (Hall c Hc). apply JsString_eqb_false in Hall. contradiction.
    + intros _. split; [reflexivity |]. rewrite length_app. simpl. lia.
    + repeat split.
  - rewrite Hk. replace (-1 <? 0 + Z.of_nat k) with true by (symmetry; apply Z.ltb_lt; lia).
    replace (Z.to_nat (0 + Z.of_nat k)) with k by lia.
    simpl. split; [| split].
    + intros i c Hi Hid Hfirst.
      assert (i = k) as ->.
      { destruct (Nat.lt_trichotomy i k) as [Hlt | [Heq | Hgt]]; [| assumption |].
        - specialize (Hmin i c Hlt Hi). apply JsString_eqb_false in Hmin. contradiction.
        - apply JsString_eqb_true in Hpx. exfalso. exact (Hfirst k x Hgt Hx Hpx). }
      split; [apply length_insert |]. split.
      * apply list_lookup_insert_eq. eapply lookup_lt_Some; eassumption.
      * intros j Hj. apply list_lookup_insert_ne. congruence.
    + intros Hnone. exfalso. apply JsString_eqb_true in Hpx.
      apply (Hnone x); [apply list_elem_of_lookup; eauto | assumption].
    + repeat split.
Qed.

(** An edit of the first of two cards. *)
Lemma handleSaveCard_upsert_witness :
  let renamed := Card.mk "card-1" "Visa Platinum" "0427" (JsNumber.ofZ 2000) "g" in
  let st := Samples.store [Samples.visa; Samples.amex] [] in
  let cards' := App.cards (App.handleSaveCard renamed st) in
  length cards' = 2%nat
  ∧ cards' !! 0%nat = Some renamed
  ∧ ∀ j : nat, j ≠ 0%nat → cards' !! j = [Samples.visa; Samples.amex] !! j.
Proof.
  intros renamed st cards'.
  apply (proj1 (handleSaveCard_upsert renamed st) 0%nat Samples.visa).
  - reflexivity.
  - reflexivity.
  - intros j c' Hj. lia.
Defined.

(** ** Upsert of a transaction by identifier *)

Lemma truthy_nonempty (s : string) : JsString.truthy s = true ↔ s ≠ "".
Proof. destruct s; simpl; split; intros; congruence. Qed.

Lemma truthyId_Some (o : option string) (i : string) :
  App.truthyId o = Some i ↔ o = Some i ∧ i ≠ "".
Proof.
  unfold App.truthyId. destruct o as [s|]; [| split; [discriminate | intros [? _]; discriminate]].
  destruct s; simpl; split.
  - discriminate.
  - intros [[= <-] Hne]. congruence.
  - intros [= <-]. split; [reflexivity | discriminate].
  - intros [[= <-] _]. reflexivity.
Qed.

(** C5, as amended.  A save that carries a non-empty identifier edits in
    place: the list keeps its length, every record with another
    identifier is unchanged, and every record with that identifier keeps
    its identifier and takes the card, merchant, amount and category of
    the save; its date is the date carried by the save when there is one
    and the original date otherwise. *)
Theorem handleSaveTransaction_edit (clock : Clock) (data : App.SaveData)
    (st : App.State) (i : string) :
  App.data_id data = Some i →
  i ≠ "" →
  let txs := App.transactions st in
  let txs' := App.transactions (App.handleSaveTransaction clock data st) in
  length txs' = length txs
  ∧ ∀ (k : nat) (t : Transaction.t),
      txs !! k = Some t →
      (Transaction.id t ≠ i → txs' !! k = Some t)
      ∧ (Transaction.id t = i →
         ∃ t' : Transaction.t,
           txs' !! k = Some t'
           ∧ Transaction.id t' = Transaction.id t
           ∧ Transaction.date t' = default (Transaction.date t) (App.data_date data)
           ∧ (App.data_date data = None → Transaction.date t' = Transaction.date t)
           ∧ Transaction.cardId t' = App.data_cardId data
           ∧ Transaction.merchant t' = App.data_merchant data
           ∧ Transaction.amount t' = App.data_amount data
           ∧ Transaction.category t' = App.data_category data).
Proof.
  intros Hid Hne txs txs'. subst txs txs'.
  unfold App.handleSaveTransaction.
  rewrite (proj2 (truthyId_Some _ _) (conj Hid Hne)). simpl.
  split; [apply length_map |].
  intros k t Hk.
  change (List.map ?f ?l) with (f <$> l).
  rewrite list_lookup_fmap, Hk. simpl.
  split.
  - intros Hother. apply JsString_eqb_false in Hother. rewrite Hother. reflexivity.
  - intros Hsame. apply JsString_eqb_true in Hsame. rewrite Hsame.
    eexists. split; [reflexivity |]. unfold App.spread. simpl.
    rewrite Hid. simpl. apply JsString_eqb_true in Hsame.
    repeat split; try congruence.
    intros ->. reflexivity.
Qed.

(** An edit of the second of two transactions by a save without a date. *)
Lemma handleSaveTransaction_edit_witness :
  let t1 := Samples.tx "tx-1" "card-1" 20 "2024-06-01T10:00:00.000Z" Food in
  let t2 := Samples.tx "tx-2" "card-1" 30 "2024-06-02T10:00:00.000Z" Fuel in
  let data := {| App.data_id := Some "tx-2"; App.data_date := None;
                 App.data_cardId := "card-2"; App.data_merchant := "Cafe";
                 App.data_amount := 35; App.data_category := Food |} in
  let st := Samples.store [Samples.visa; Samples.amex] [t1; t2] in
  App.transactions (App.handleSaveTransaction Samples.clock data st)
  = [t1; Transaction.mk "tx-2" "card-2" "Cafe" 35 "2024-06-02T10:00:00.000Z" Food]
  ∧ length (App.transactions (App.handleSaveTransaction Samples.clock data st))
    = length (App.transactions st).
Proof.
  intros t1 t2 data st. split; [reflexivity |].
  apply (handleSaveTransaction_edit Samples.clock data st "tx-2").
  - reflexivity.
  - discriminate.
Defined.

(** C5, as stated, fails on two inputs the handler's type admits: a save
    that carries a date replaces the date of the edited record, and a
    save whose identifier is the empty string is taken for a new record
    and appended. *)
Lemma handleSaveTransaction_edit_counterexample :
  let t1 := Samples.tx "tx-1" "card-1" 20 "2024-06-01T10:00:00.000Z" Food in
  let dated := {| App.data_id := Some "tx-1";
                  App.data_date := Some "2020-01-01T00:00:00.000Z";
                  App.data_cardId := "card-1"; App.data_merchant := "Shop";
                  App.data_amount := 20; App.data_category := Food |} in
  let t0 := Samples.tx "" "card-1" 20 "2024-06-01T10:00:00.000Z" Food in
  let unnamed := {| App.data_id := Some ""; App.data_date := None;
                    App.data_cardId := "card-1"; App.data_merchant := "Shop";
                    App.data_amount := 20; App.data_category := Food |} in
  (App.data_id dated = Some (Transaction.id t1)
   ∧ Transaction.date <$>
       App.transactions (App.handleSaveTransaction Samples.clock dated
                           (Samples.store [Samples.visa] [t1]))
     ≠ [Transaction.date t1])
  ∧ (App.data_id unnamed = Some (Transaction.id t0)
     ∧ length (App.transactions (App.handleSaveTransaction Samples.clock unnamed
                                   (Samples.store [Samples.visa] [t0])))
       ≠ length [t0]).
Proof.
  intros t1 dated t0 unnamed.
  split; (split; [reflexivity |]); vm_compute; discriminate.
Qed.

(** ** SMS ingestion: a parse result for an unknown card *)

Lemma find_none_iff {A : Type} (p : A → bool) (l : list A) :
  List.find p l = None ↔ ∀ x : A, x ∈ l → p x = false.
Proof.
  induction l as [|a l IH]; simpl.
  - split; [intros _ x Hx; inversion Hx | reflexivity].
  - destruct (p a) eqn:Hpa.
    + split; [discriminate |]. intros Hall.
      specialize (Hall a (list_elem_of_here a l)). congruence.
    + rewrite IH. split.
      * intros Hall x Hx. apply elem_of_cons in Hx as [-> | Hx]; auto.
      * intros Hall x Hx. apply Hall. apply list_elem_of_further. assumption.
Qed.

(** C3. When the call to the service settles with a structurally valid
    parse result and no card of the current list ends in the digits it
    names, the handler reports that no card ending in those digits could
    be found and commits nothing: the transaction list, the card list and
    the text entered are what they were.  The same holds of the whole
    handler, from the click on: the service is consulted when the message
    is not blank and there is at least one card. *)
Theorem handleParseSms_card_not_found (clock : Clock) (result : ParsedSmsData.t)
    (st : App.State) :
  (∀ c : Card.t, c ∈ App.cards st → Card.last4 c ≠ ParsedSmsData.cardLast4 result) →
  (let st' := App.handleParseSms_settled clock (Some result) st in
   App.error st'
     = Some ("Could not find a card ending in " +:+ ParsedSmsData.cardLast4 result +:+ ".")
   ∧ App.transactions st' = App.transactions st
   ∧ App.cards st' = App.cards st
   ∧ App.smsInput st' = App.smsInput st)
  ∧ ∀ generateContent : string → option ParsedSmsData.t,
      JsString.trim (App.smsInput st) ≠ "" →
      App.cards st ≠ [] →
      App.parseSmsExpense generateContent (App.smsInput st) = Some result →
      let st' := App.handleParseSms generateContent clock st in
      App.error st'
        = Some ("Could not find a card ending in " +:+ ParsedSmsData.cardLast4 result +:+ ".")
      ∧ App.transactions st' = App.transactions st
      ∧ App.cards st' = App.cards st
      ∧ App.smsInput st' = App.smsInput st
      ∧ App.successMessage st' = None.
Proof.
  intros Hnone.
  assert (Hfind : List.find (λ c, JsString.eqb (Card.last4 c) (ParsedSmsData.cardLast4 result))
                    (App.cards st) = None).
  { apply find_none_iff. intros c Hc. apply JsString_eqb_false. apply Hnone. exact Hc. }
  split.
  - unfold App.handleParseSms_settled. simpl. rewrite Hfind. repeat split.
  - intros generateContent Hsms Hcards Hparse. unfold App.handleParseSms.
    apply truthy_nonempty in Hsms. rewrite Hsms. simpl.
    rewrite bool_decide_eq_false_2
      by (intros Hlen; apply Hcards; destruct (App.cards st); [reflexivity | discriminate]).
    rewrite Hparse. unfold App.handleParseSms_settled. simpl. rewrite Hfind. repeat split.
Qed.

(** A message naming card 1111 while the only card ends in 0427. *)
Lemma handleParseSms_card_not_found_witness :
  let result := ParsedSmsData.mk "Shop" 12 "1111" (Some Shopping) in
  let st := Samples.store [Samples.visa]
              [Samples.tx "tx-1" "card-1" 20 "2024-06-01T10:00:00.000Z" Food] in
  let st' := App.handleParseSms_settled Samples.clock (Some result) st in
  App.error st' = Some "Could not find a card ending in 1111."
  ∧ App.transactions st' = App.transactions st
  ∧ App.cards st' = App.cards st
  ∧ App.smsInput st' = App.smsInput st.
Proof.
  intros result st st'.
  apply (handleParseSms_card_not_found Samples.clock result st).
  intros c Hc. apply list_elem_of_singleton in Hc as ->. discriminate.
Defined.

(** ** The guarded percentage *)

Lemma gt_zero_cases (a : number) :
  JsNumber.gt a (JsNumber.ofZ 0) = true →
  a = Infinity false ∨ ∃ q : Q, a = Fin q ∧ (0 < q)%Q ∧ JsNumber.isZero q = false.
Proof.
  unfold JsNumber.gt, JsNumber.ofZ.
  destruct a as [| [] | q]; simpl; try discriminate.
  - intros _. left. reflexivity.
  - intros Hgt. right. exists q.
    destruct (q ?= inject_Z 0)%Q eqn:Hc; try discriminate.
    apply Qgt_alt in Hc. split; [reflexivity |]. split; [exact Hc |].
    unfold JsNumber.isZero. apply Z.eqb_neq.
    unfold Qlt in Hc. simpl in Hc. lia.
Qed.



(** ** The card editor *)

Lemma isDigit_spec (c : ascii) : JsString.isDigit c = true ↔ c ∈ digitChars.
Proof.
  split.
  - intros Hd.
    destruct c as [[] [] [] [] [] [] [] []]; vm_compute in Hd; try discriminate;
      unfold digitChars; set_solver.
  - intros Hin. unfold digitChars in Hin.
    repeat (apply elem_of_cons in Hin as [-> | Hin]; [reflexivity |]).
    inversion Hin.
Qed.

Lemma matchDigits_spec (n : nat) (s r : string) :
  AddCardModal.matchDigits n s = Some r ↔
  ∃ ds : list ascii,
    length ds = n ∧ Forall (λ c, c ∈ digitChars) ds
    ∧ s = foldr String r ds.
Proof.
  revert s. induction n as [|n IH]; intros s; simpl.
  - split.
    + intros [= ->]. exists []. split; [reflexivity |]. split; [constructor | reflexivity].
    + intros (ds & Hlen & _ & ->). destruct ds; [reflexivity | discriminate].
  - destruct s as [|c s].
    + split; [discriminate |].
      intros (ds & Hlen & _ & Hs). destruct ds; discriminate.
    + destruct (JsString.isDigit c) eqn:Hc.
      * rewrite IH. split.
        -- intros (ds & Hlen & Hall & ->). exists (c :: ds).
           split; [simpl; lia |]. split; [| reflexivity].
           constructor; [apply isDigit_spec; assumption | assumption].
        -- intros (ds & Hlen & Hall & Hs). destruct ds as [|d ds]; [discriminate |].
           simpl in Hs. injection Hs as -> ->.
           exists ds. split; [simpl in Hlen; lia |]. split; [| reflexivity].
           inversion Hall; assumption.
      * split; [discriminate |].
        intros (ds & Hlen & Hall & Hs). destruct ds as [|d ds]; [discriminate |].
        simpl in Hs. injection Hs as -> ->.
        inversion Hall as [|? ? Hd _]; subst. apply isDigit_spec in Hd. congruence.
Qed.

Lemma testFourDigits_spec (s : string) :
  AddCardModal.testFourDigits s = true ↔
  ∃ a b c d : ascii,
    s = String a (String b (String c (String d EmptyString)))
    ∧ Forall (λ x, x ∈ digitChars) [a; b; c; d].
Proof.
  unfold AddCardModal.testFourDigits. split.
  - destruct (AddCardModal.matchDigits 4 s) as [r|] eqn:Hm; [| discriminate].
    destruct r; [| discriminate]. intros _.
    apply matchDigits_spec in Hm as (ds & Hlen & Hall & ->).
    destruct ds as [|a [|b [|c [|d [|? ?]]]]]; try discriminate.
    exists a, b, c, d. split; [reflexivity | assumption].
  - intros (a & b & c & d & -> & Hall).
    replace (AddCardModal.matchDigits 4 _) with (Some EmptyString); [reflexivity |].
    symmetry. apply matchDigits_spec. exists [a; b; c; d].
    split; [reflexivity |]. split; [assumption | reflexivity].
Qed.

(** Steps through the three checks [handleSubmit] makes first, closing
    with [tac] the branches in which one of them rejects. *)
Ltac early_checks tac :=
  unfold AddCardModal.handleSubmit;
  destruct (negb _ || negb _ || negb _); [tac |];
  destruct (negb (AddCardModal.testFourDigits _)); [tac |];
  destruct (JsNumber.le _ _) eqn:?Hle; [tac |].

Lemma handleSubmit_rejects_bad_last4 (clock : Clock) (pick : nat)
    (cardToEdit : option Card.t) (cards : list Card.t) (name last4 limit : string) :
  AddCardModal.testFourDigits last4 = false →
  ∃ e : string,
    AddCardModal.handleSubmit clock pick cardToEdit cards name last4 limit
    = AddCardModal.Rejected e.
Proof.
  intros Hbad. unfold AddCardModal.handleSubmit.
  destruct (negb _ || negb _ || negb _); [eexists; reflexivity |].
  rewrite Hbad. simpl. eexists; reflexivity.
Qed.

Lemma handleSubmit_passes_good_last4 (clock : Clock) (pick : nat)
    (cardToEdit : option Card.t) (cards : list Card.t) (name last4 limit : string) :
  AddCardModal.testFourDigits last4 = true →
  AddCardModal.handleSubmit clock pick cardToEdit cards name last4 limit
  ≠ AddCardModal.Rejected "Last 4 digits must be exactly 4 numbers.".
Proof.
  intros Hgood. unfold AddCardModal.handleSubmit.
  destruct (negb _ || negb _ || negb _); [discriminate |].
  rewrite Hgood. simpl.
  repeat (match goal with |- context [if ?b then _ else _] => destruct b end;
          try discriminate).
Qed.

(** C6. The last-four-digits check of the card editor accepts a value
    exactly when it consists of four digit characters.  A submission
    whose value fails the check is rejected with an error and commits no
    card, whatever the other fields are; a value that passes is never
    turned down by this check.  In particular "123" and "12345" are
    rejected and "0427" passes. *)
Theorem last4_validation :
  (∀ s : string,
      AddCardModal.testFourDigits s = true ↔
      ∃ a b c d : ascii,
        s = String a (String b (String c (String d EmptyString)))
        ∧ Forall (λ x, x ∈ digitChars) [a; b; c; d])
  ∧ (∀ clock pick cardToEdit cards name last4 limit,
        AddCardModal.testFourDigits last4 = false →
        ∃ e : string,
          AddCardModal.handleSubmit clock pick cardToEdit cards name last4 limit
          = AddCardModal.Rejected e)
  ∧ (∀ clock pick cardToEdit cards name last4 limit,
        AddCardModal.testFourDigits last4 = true →
        AddCardModal.handleSubmit clock pick cardToEdit cards name last4 limit
        ≠ AddCardModal.Rejected "Last 4 digits must be exactly 4 numbers.")
  ∧ (∀ clock pick cardToEdit cards name limit,
        (∃ e, AddCardModal.handleSubmit clock pick cardToEdit cards name "123" limit
              = AddCardModal.Rejected e)
        ∧ (∃ e, AddCardModal.handleSubmit clock pick cardToEdit cards name "12345" limit
                = AddCardModal.Rejected e))
  ∧ AddCardModal.testFourDigits "0427" = true
  ∧ AddCardModal.handleSubmit Samples.clock 0 None [] "Visa Gold" "0427" "1000"
    = AddCardModal.Saved
        (Card.mk "card-1718000000000" "Visa Gold" "0427" (Fin 1000)
           "from-blue-400 to-purple-500").
Proof.
  split; [exact testFourDigits_spec |].
  split; [exact handleSubmit_rejects_bad_last4 |].
  split; [exact handleSubmit_passes_good_last4 |].
  split; [| split; reflexivity].
  intros clock pick cardToEdit cards name limit.
  split; apply handleSubmit_rejects_bad_last4; reflexivity.
Qed.

(** The check at the values "12a4" (rejected) and "0427" (passed). *)
Lemma last4_validation_witness :
  (∃ e : string,
      AddCardModal.handleSubmit Samples.clock 0 None [] "Visa Gold" "12a4" "1000"
      = AddCardModal.Rejected e)
  ∧ AddCardModal.handleSubmit Samples.clock 0 None [] "Visa Gold" "0427" "1000"
    ≠ AddCardModal.Rejected "Last 4 digits must be exactly 4 numbers.".
Proof.
  destruct last4_validation as (_ & Hrej & Hpass & _).
  split.
  - apply Hrej. reflexivity.
  - apply Hpass. reflexivity.
Defined.


(** What the limit check does guarantee: a committed card has a limit
    that is greater than 0 or is [NaN]. *)
Lemma handleSubmit_saved_limit (clock : Clock) (pick : nat)
    (cardToEdit : option Card.t) (cards : list Card.t)
    (name last4 limit : string) (card : Card.t) :
  AddCardModal.handleSubmit clock pick cardToEdit cards name last4 limit
  = AddCardModal.Saved card →
  Card.limit card = JsNumber.parseFloat limit
  ∧ (JsNumber.gt (Card.limit card) (JsNumber.ofZ 0) = true ∨ Card.limit card = NaN).
Proof.
  early_checks discriminate.
  destruct (existsb _ cards); [discriminate |].
  destruct (existsb _ cards); [discriminate |].
  intros [= <-]. simpl. split; [reflexivity |].
  unfold JsNumber.le, JsNumber.gt in *.
  destruct (JsNumber.compare (JsNumber.parseFloat limit) (JsNumber.ofZ 0)) as [[]|] eqn:Hc;
    try discriminate.
  - left. reflexivity.
  - right. destruct (JsNumber.parseFloat limit) as [| [] | q]; simpl in Hc;
      try discriminate; reflexivity.
Qed.

(** *** Trimming and case folding *)

Lemma isWhiteSpace_lowerChar (c : ascii) :
  JsString.isWhiteSpace (JsString.lowerChar c) = JsString.isWhiteSpace c.
Proof. destruct c as [[] [] [] [] [] [] [] []]; reflexivity. Qed.

Lemma trimEnd_fixed_cons (c : ascii) (r : string) :
  JsString.trimEnd (String c r) = String c r ↔
  (r = EmptyString ∧ JsString.isWhiteSpace c = false)
  ∨ (r ≠ EmptyString ∧ JsString.trimEnd r = r).
Proof.
  simpl. destruct (JsString.trimEnd r) as [|c' r'] eqn:Hr.
  - destruct (JsString.isWhiteSpace c) eqn:Hc.
    + split; [discriminate |]. intros [[_ ?] | [Hne He]]; [discriminate |].
      symmetry in He. contradiction.
    + split.
      * intros [= <-]. left. split; reflexivity.
      * intros [[-> _] | [Hne He]]; [reflexivity |]. symmetry in He. contradiction.
  - split.
    + intros [= <-]. right. split; [discriminate | reflexivity].
    + intros [[-> _] | [_ <-]]; [discriminate | reflexivity].
Qed.

Lemma trimEnd_idempotent (s : string) :
  JsString.trimEnd (JsString.trimEnd s) = JsString.trimEnd s.
Proof.
  induction s as [|c r IH]; [reflexivity |]. simpl.
  destruct (JsString.trimEnd r) as [|c' r'] eqn:Hr.
  - destruct (JsString.isWhiteSpace c) eqn:Hc; [reflexivity |].
    simpl. rewrite Hc. reflexivity.
  - change (JsString.trimEnd (String c (String c' r')) = String c (String c' r')).
    apply trimEnd_fixed_cons. right. split; [discriminate | exact IH].
Qed.

Lemma trimStart_startsClean (s : string) : startsClean (JsString.trimStart s).
Proof.
  induction s as [|c r IH]; simpl; [exact I |].
  destruct (JsString.isWhiteSpace c) eqn:Hc; [exact IH | exact Hc].
Qed.

Lemma trimStart_fixed (s : string) : startsClean s → JsString.trimStart s = s.
Proof. destruct s as [|c r]; simpl; [reflexivity |]. intros ->. reflexivity. Qed.

Lemma trimEnd_startsClean (s : string) : startsClean s → startsClean (JsString.trimEnd s).
Proof.
  destruct s as [|c r]; simpl; [trivial |]. intros Hc.
  destruct (JsString.trimEnd r); [rewrite Hc |]; exact Hc.
Qed.

Lemma toLowerCase_startsClean (x t : string) :
  JsString.toLowerCase x = JsString.toLowerCase t → startsClean t → startsClean x.
Proof.
  destruct x as [|c r], t as [|c' r']; simpl; try discriminate; trivial.
  intros [= Hc _] Ht.
  rewrite <- isWhiteSpace_lowerChar, Hc, isWhiteSpace_lowerChar. exact Ht.
Qed.

Lemma toLowerCase_trimEnd_fixed (x t : string) :
  JsString.toLowerCase x = JsString.toLowerCase t →
  JsString.trimEnd t = t → JsString.trimEnd x = x.
Proof.
  revert t. induction x as [|c r IH]; intros t Hlow Ht; [reflexivity |].
  destruct t as [|c' r']; [discriminate |].
  simpl in Hlow. injection Hlow as Hc Hr.
  apply trimEnd_fixed_cons. apply trimEnd_fixed_cons in Ht as [[-> Hws] | [Hne Hfix]].
  - left. split.
    + destruct r; [reflexivity | discriminate].
    + rewrite <- isWhiteSpace_lowerChar, Hc, isWhiteSpace_lowerChar. exact Hws.
  - right. split.
    + intros ->. destruct r'; [contradiction | discriminate].
    + apply (IH r'); assumption.
Qed.

(** A name that equals a trimmed name up to case is itself trimmed. *)
Lemma trim_fixed_of_toLowerCase (x y : string) :
  JsString.toLowerCase x = JsString.toLowerCase (JsString.trim y) →
  JsString.trim x = x.
Proof.
  intros Hlow. unfold JsString.trim in *.
  assert (Hclean : startsClean x).
  { apply (toLowerCase_startsClean _ _ Hlow).
    apply trimEnd_startsClean, trimStart_startsClean. }
  rewrite (trimStart_fixed _ Hclean).
  apply (toLowerCase_trimEnd_fixed _ _ Hlow). apply trimEnd_idempotent.
Qed.

(** *** Name uniqueness *)

Lemma nameClash_trim (name : string) (card : Card.t) :
  nameClash name card ↔
  JsString.toLowerCase (JsString.trim (Card.name card))
  = JsString.toLowerCase (JsString.trim name).
Proof.
  unfold nameClash. split; [| intros H; right; congruence].
  intros [Hlit | Htrim]; [| congruence].
  rewrite (trim_fixed_of_toLowerCase (Card.name card) name); congruence.
Qed.

Lemma otherThanEdited_spec (cardToEdit : option Card.t) (card : Card.t) :
  AddCardModal.otherThanEdited cardToEdit card = true ↔ differentId cardToEdit card.
Proof.
  unfold AddCardModal.otherThanEdited, differentId.
  destruct cardToEdit as [e|].
  - rewrite negb_true_iff, JsString_eqb_false. split.
    + intros Hne edited [= <-]. exact Hne.
    + intros Hall. apply Hall. reflexivity.
  - split; [intros _ edited; discriminate | reflexivity].
Qed.

Lemma fieldChecks_spec (name last4 limit : string) :
  fieldChecks name last4 limit = true ↔
  (negb (JsString.truthy (JsString.trim name)) || negb (JsString.truthy last4)
   || negb (JsString.truthy limit) = false)
  ∧ negb (AddCardModal.testFourDigits last4) = false
  ∧ JsNumber.le (JsNumber.parseFloat limit) (JsNumber.ofZ 0) = false.
Proof.
  unfold fieldChecks.
  destruct (JsString.truthy (JsString.trim name)), (JsString.truthy last4),
    (JsString.truthy limit), (AddCardModal.testFourDigits last4),
    (JsNumber.le (JsNumber.parseFloat limit) (JsNumber.ofZ 0));
    simpl; intuition congruence.
Qed.

(** C7, as amended.  A submission whose trimmed name equals, up to case,
    the name of a card of the list other than the one being edited
    commits nothing; when its fields pass the presence, digits and limit
    checks, which are made first, the error shown is the name-uniqueness
    error.  A submission whose name clashes
    with no card but the one being edited is not turned down for its
    name: with valid fields and digits no other card uses, it is saved
    under the identifier of the edited card. *)
Theorem handleSubmit_name_uniqueness (clock : Clock) (pick : nat)
    (cardToEdit : option Card.t) (cards : list Card.t) (name last4 limit : string) :
  let outcome := AddCardModal.handleSubmit clock pick cardToEdit cards name last4 limit in
  ((∃ c : Card.t, c ∈ cards ∧ differentId cardToEdit c ∧ nameClash name c) →
     (∃ e : string, outcome = AddCardModal.Rejected e)
     ∧ (fieldChecks name last4 limit = true →
        outcome = AddCardModal.Rejected "A card with this name already exists."))
  ∧ ((∀ c : Card.t, c ∈ cards → nameClash name c → ¬ differentId cardToEdit c) →
       outcome ≠ AddCardModal.Rejected "A card with this name already exists."
       ∧ (fieldChecks name last4 limit = true →
          (∀ c : Card.t, c ∈ cards → differentId cardToEdit c → Card.last4 c ≠ last4) →
          ∃ card : Card.t,
            outcome = AddCardModal.Saved card
            ∧ Card.name card = JsString.trim name
            ∧ ∀ edited : Card.t, cardToEdit = Some edited → Card.id card = Card.id edited)).
Proof.
  intros outcome. subst outcome. unfold AddCardModal.handleSubmit.
  set (nameExists := existsb _ cards).
  set (last4Exists := existsb _ cards).
  split.
  - intros (c & Hin & Hdiff & Hclash).
    assert (Hex : nameExists = true).
    { apply existsb_exists. exists c. split; [apply list_elem_of_In; exact Hin |].
      apply andb_true_iff. split.
      - apply otherThanEdited_spec. exact Hdiff.
      - apply JsString_eqb_true. apply nameClash_trim. exact Hclash. }
    split.
    + early_checks ltac:(eexists; reflexivity).
      rewrite Hex. eexists; reflexivity.
    + intros Hok. apply fieldChecks_spec in Hok as (-> & -> & ->).
      rewrite Hex. reflexivity.
  - intros Honly.
    assert (Hex : nameExists = false).
    { apply not_true_is_false. intros Htrue.
      apply existsb_exists in Htrue as (c & Hin & Hc).
      apply andb_true_iff in Hc as [Hother Hname].
      apply (Honly c).
      - apply list_elem_of_In. exact Hin.
      - apply nameClash_trim. apply JsString_eqb_true. exact Hname.
      - apply otherThanEdited_spec. exact Hother. }
    split.
    + early_checks discriminate.
      rewrite Hex. destruct last4Exists; discriminate.
    + intros Hok Hlast4. apply fieldChecks_spec in Hok as (-> & -> & ->).
      rewrite Hex.
      assert (Hl4 : last4Exists = false).
      { apply not_true_is_false. intros Htrue.
        apply existsb_exists in Htrue as (c & Hin & Hc).
        apply andb_true_iff in Hc as [Hother Hsame].
        apply (Hlast4 c).
        - apply list_elem_of_In. exact Hin.
        - apply otherThanEdited_spec. exact Hother.
        - apply JsString_eqb_true. exact Hsame. }
      rewrite Hl4. eexists. split; [reflexivity |]. split; [reflexivity |].
      intros edited ->. reflexivity.
Qed.

(** A new card named " visa GOLD " against a list that holds "Visa Gold",
    and an edit of that very card under the same name. *)
Lemma handleSubmit_name_uniqueness_witness :
  AddCardModal.handleSubmit Samples.clock 0 None [Samples.visa; Samples.amex]
    " visa GOLD " "1234" "500"
  = AddCardModal.Rejected "A card with this name already exists."
  ∧ ∃ card : Card.t,
      AddCardModal.handleSubmit Samples.clock 0 (Some Samples.visa)
        [Samples.visa; Samples.amex] "visa gold" "0427" "2500"
      = AddCardModal.Saved card
      ∧ Card.name card = JsString.trim "visa gold"
      ∧ ∀ edited : Card.t, Some Samples.visa = Some edited → Card.id card = Card.id edited.
Proof.
  split.
  - apply (proj1 (handleSubmit_name_uniqueness Samples.clock 0 None
                    [Samples.visa; Samples.amex] " visa GOLD " "1234" "500")).
    + exists Samples.visa. split; [apply list_elem_of_here |].
      split; [intros edited; discriminate | left; reflexivity].
    + reflexivity.
  - apply (proj2 (handleSubmit_name_uniqueness Samples.clock 0 (Some Samples.visa)
                    [Samples.visa; Samples.amex] "visa gold" "0427" "2500")).
    + intros c Hc Hclash Hdiff.
      apply elem_of_cons in Hc as [-> | Hc].
      * apply (Hdiff Samples.visa); reflexivity.
      * apply list_elem_of_singleton in Hc as ->.
        apply nameClash_trim in Hclash. vm_compute in Hclash. discriminate.
    + reflexivity.
    + intros c Hc Hdiff.
      apply elem_of_cons in Hc as [-> | Hc].
      * exfalso. apply (Hdiff Samples.visa); reflexivity.
      * apply list_elem_of_singleton in Hc as ->. discriminate.
Defined.

(** C7, as stated, fails on a submission that also fails a check made
    before the name is looked up: with three digits entered, the error
    shown for a clashing name is the error about the digits. *)
Lemma handleSubmit_name_uniqueness_counterexample :
  Samples.visa ∈ [Samples.visa; Samples.amex]
  ∧ differentId None Samples.visa
  ∧ nameClash "visa gold" Samples.visa
  ∧ AddCardModal.handleSubmit Samples.clock 0 None [Samples.visa; Samples.amex]
      "visa gold" "123" "500"
    = AddCardModal.Rejected "Last 4 digits must be exactly 4 numbers."
  ∧ AddCardModal.handleSubmit Samples.clock 0 None [Samples.visa; Samples.amex]
      "visa gold" "123" "500"
    ≠ AddCardModal.Rejected "A card with this name already exists.".
Proof.
  split; [apply list_elem_of_here |].
  split; [intros edited; discriminate |].
  split; [left; reflexivity |].
  split; [reflexivity | discriminate].
Qed.

(** ** The monthly aggregations *)

(** *** Maps *)

Section JsMapFacts.
Context {K V : Type} `{EqDecision K}.
Implicit Types (m : JsMap.t K V) (k : K) (v : V).

Lemma get_set_eq m k v : JsMap.get (JsMap.set m k v) k = Some v.
Proof.
  induction m as [|[k' v'] m IH]; simpl.
  - rewrite decide_True by reflexivity. reflexivity.
  - destruct (decide (k' = k)) as [->|Hne]; simpl.
    + rewrite decide_True by reflexivity. reflexivity.
    + rewrite decide_False by assumption. exact IH.
Qed.

Lemma get_set_ne m k k' v : k ≠ k' → JsMap.get (JsMap.set m k v) k' = JsMap.get m k'.
Proof.
  intros Hne. induction m as [|[k0 v0] m IH]; simpl.
  - rewrite decide_False by assumption. reflexivity.
  - destruct (decide (k0 = k)) as [->|Hne0]; simpl.
    + rewrite !decide_False by assumption. reflexivity.
    + destruct (decide (k0 = k')); [reflexivity | exact IH].
Qed.




End JsMapFacts.

(** *** Sums of amounts *)

Lemma sumQ_cons (a : Q) (l : list Q) : sumQ (a :: l) = (a + sumQ l)%Q.
Proof. reflexivity. Qed.

Lemma orZero_Some (q : Q) : (JsNumber.orZero (Some q) == q)%Q.
Proof.
  unfold JsNumber.orZero, JsNumber.isZero.
  destruct (Z.eqb_spec (Qnum q) 0) as [Hz|Hz]; [| reflexivity].
  unfold Qeq. simpl. lia.
Qed.

(** *** Grouped monthly sums *)

Section GroupedSums.
Context `{Locale} {K : Type} `{EqDecision K} (key : Transaction.t → K).

Lemma group_fold_value (now : JsDate) (k : K)
    (transactions : list Transaction.t) (m : JsMap.t K Q) :
  (JsNumber.orZero (JsMap.get (foldl (groupStep key now) m transactions) k)
   == JsNumber.orZero (JsMap.get m k) + groupSpend key now k transactions)%Q.
Proof.
  revert m. induction transactions as [|tx txs IH]; intros m.
  - simpl foldl. change (groupSpend key now k []) with 0%Q. ring.
  - simpl foldl. rewrite IH. unfold groupSpend, groupOfMonth, groupStep.
    simpl List.filter.
    destruct (App.inCurrentMonth now tx); simpl andb; [| reflexivity].
    destruct (bool_decide_reflect (key tx = k)) as [->|Hne].
    + rewrite get_set_eq, orZero_Some, fmap_cons, sumQ_cons. ring.
    + rewrite get_set_ne by assumption. reflexivity.
Qed.

Lemma group_fold_defined (now : JsDate) (k : K)
    (transactions : list Transaction.t) (m : JsMap.t K Q) :
  is_Some (JsMap.get m k) →
  is_Some (JsMap.get (foldl (groupStep key now) m transactions) k).
Proof.
  revert m. induction transactions as [|tx txs IH]; intros m Hm; [exact Hm |].
  simpl. apply IH. unfold groupStep.
  destruct (App.inCurrentMonth now tx); [| exact Hm].
  destruct (decide (key tx = k)) as [->|Hne].
  - rewrite get_set_eq. eexists; reflexivity.
  - rewrite get_set_ne by assumption. exact Hm.
Qed.


(** A transaction of another group or another month does not count. *)
Lemma groupSpend_foreign (now : JsDate) (k : K)
    (before after : list Transaction.t) (tx : Transaction.t) :
  key tx ≠ k ∨ App.inCurrentMonth now tx = false →
  groupSpend key now k (before ++ tx :: after) = groupSpend key now k (before ++ after).
Proof.
  intros Hforeign. unfold groupSpend, groupOfMonth.
  rewrite !List.filter_app. simpl List.filter.
  replace (App.inCurrentMonth now tx && bool_decide (key tx = k)) with false; [reflexivity |].
  symmetry. destruct Hforeign as [Hk | ->]; [| reflexivity].
  rewrite bool_decide_eq_false_2 by assumption. apply andb_false_r.
Qed.
End GroupedSums.

(** *** The monthly card summary *)

Section CardSummary.
Context `{Locale}.

Lemma expenses_init_defined (cards : list Card.t) (c : Card.t) (m : JsMap.t string Q) :
  c ∈ cards ∨ is_Some (JsMap.get m (Card.id c)) →
  is_Some (JsMap.get (foldl (λ m card, JsMap.set m (Card.id card) 0%Q) m cards) (Card.id c)).
Proof.
  revert m. induction cards as [|a cards IH]; intros m [Hin|Hm]; simpl.
  - inversion Hin.
  - exact Hm.
  - apply IH. apply elem_of_cons in Hin as [->|Hin]; [right | left; exact Hin].
    rewrite get_set_eq. eexists; reflexivity.
  - apply IH. right. destruct (decide (Card.id a = Card.id c)) as [->|Hne].
    + rewrite get_set_eq. eexists; reflexivity.
    + rewrite get_set_ne by assumption. exact Hm.
Qed.

Lemma expenses_init_value (cards : list Card.t) (cardId : string) (m : JsMap.t string Q) :
  (JsNumber.orZero (JsMap.get m cardId) == 0)%Q →
  (JsNumber.orZero
     (JsMap.get (foldl (λ m card, JsMap.set m (Card.id card) 0%Q) m cards) cardId) == 0)%Q.
Proof.
  revert m. induction cards as [|a cards IH]; intros m Hm; simpl; [exact Hm |].
  apply IH. destruct (decide (Card.id a = cardId)) as [->|Hne].
  - rewrite get_set_eq. reflexivity.
  - rewrite get_set_ne by assumption. exact Hm.
Qed.

(** The entry read for any identifier, with the [|| 0] of its readers,
    is the monthly spend of that identifier. *)
Lemma cardExpenses_value (now : JsDate) (cards : list Card.t)
    (transactions : list Transaction.t) (cardId : string) :
  (JsNumber.orZero (JsMap.get (App.cardExpenses now cards transactions) cardId)
   == monthlySpend now cardId transactions)%Q.
Proof.
  unfold App.cardExpenses. fold (groupStep Transaction.cardId now).
  rewrite group_fold_value.
  rewrite expenses_init_value by reflexivity.
  change (groupSpend Transaction.cardId now cardId transactions)
    with (monthlySpend now cardId transactions). ring.
Qed.

(** C1. For every card of the card list, the monthly card summary has an
    entry, and the entry, also as read with [|| 0], is the sum of the
    amounts of the transactions charged to that card and dated in the
    current month and year.  A
    transaction of another card, another month or another year, wherever
    it stands in the list, contributes nothing to it. *)
Theorem cardExpenses_monthly_sum (now : JsDate) (cards : list Card.t)
    (transactions : list Transaction.t) (c : Card.t) :
  c ∈ cards →
  (∃ v : Q,
      JsMap.get (App.cardExpenses now cards transactions) (Card.id c) = Some v
      ∧ (v == monthlySpend now (Card.id c) transactions)%Q)
  ∧ (JsNumber.orZero (JsMap.get (App.cardExpenses now cards transactions) (Card.id c))
     == monthlySpend now (Card.id c) transactions)%Q
  ∧ (∀ (before after : list Transaction.t) (tx : Transaction.t),
        transactions = before ++ tx :: after →
        Transaction.cardId tx ≠ Card.id c ∨ App.inCurrentMonth now tx = false →
        monthlySpend now (Card.id c) transactions
        = monthlySpend now (Card.id c) (before ++ after)).
Proof.
  intros Hc. split.
  - destruct (group_fold_defined Transaction.cardId now (Card.id c) transactions
                (foldl (λ m card, JsMap.set m (Card.id card) 0%Q) JsMap.empty cards))
      as [v Hv].
    { apply expenses_init_defined. left. exact Hc. }
    exists v. split; [exact Hv |].
    rewrite <- cardExpenses_value with (cards := cards).
    unfold App.cardExpenses. fold (groupStep Transaction.cardId now). rewrite Hv.
    symmetry. apply orZero_Some.
  - split; [apply cardExpenses_value |].
    intros before after tx -> Hforeign.
    apply (groupSpend_foreign Transaction.cardId). exact Hforeign.
Qed.
End CardSummary.

(** Two purchases of 20 and 30 this month on one card, next to a
    purchase of last month and one on another card: the entry is 50. *)
Lemma cardExpenses_monthly_sum_witness :
  let txs := [Samples.tx "tx-1" "card-1" 20 "2024-06-01T10:00:00.000Z" Food;
              Samples.tx "tx-2" "card-1" 99 "2024-05-30T10:00:00.000Z" Fuel;
              Samples.tx "tx-3" "card-2" 5 "2024-06-02T10:00:00.000Z" Food;
              Samples.tx "tx-4" "card-1" 30 "2024-06-03T10:00:00.000Z" Travel] in
  ∃ v : Q,
    JsMap.get (@App.cardExpenses Samples.isoUtc Samples.june2024
                 [Samples.visa; Samples.amex] txs) "card-1" = Some v
    ∧ (v == 50)%Q.
Proof.
  intros txs.
  destruct (@cardExpenses_monthly_sum Samples.isoUtc Samples.june2024
              [Samples.visa; Samples.amex] txs Samples.visa
              (list_elem_of_here _ _)) as [(v & Hv & Hsum) _].
  exists v. split; [exact Hv |].
  rewrite Hsum. reflexivity.
Defined.

(** *** The monthly category summary *)

Lemma gtQ_spec (a b : Q) : App.gtQ a b = true ↔ (b < a)%Q.
Proof.
  unfold App.gtQ. rewrite (Qgt_alt a b).
  destruct (a ?= b)%Q; split; congruence.
Qed.



(** The stable sort rearranges its input. *)
Lemma insertBy_Permutation {A : Type} (cmp : A → A → Q) (x : A) (l : list A) :
  App.insertBy cmp x l ≡ₚ x :: l.
Proof.
  induction l as [|y l IH]; simpl; [reflexivity |].
  destruct (App.gtQ (cmp x y) 0); [| reflexivity].
  rewrite IH. apply Permutation_swap.
Qed.

Lemma sort_Permutation {A : Type} (cmp : A → A → Q) (l : list A) :
  App.sort cmp l ≡ₚ l.
Proof.
  induction l as [|x l IH]; simpl; [reflexivity |].
  unfold App.sort in *. simpl. rewrite insertBy_Permutation, IH. reflexivity.
Qed.



Section CategorySummary.
Context `{Locale}.

Lemma monthlySummary_unfold (now : JsDate) (transactions : list Transaction.t) :
  App.monthlySummary now transactions
  = let '(summary, total) := foldl (summaryStep now) (summary0, 0%Q) transactions in
    (App.sort (λ a b, (App.value b - App.value a)%Q)
       (List.map (pieEntry total)
          (List.filter (λ '(_, amount), App.gtQ amount 0) (JsMap.entries summary))),
     total).
Proof. reflexivity. Qed.







End CategorySummary.



(** ** The spending notifier *)

(** *** Notification keys *)



(** Case analysis on a membership in the list of thresholds. *)
Ltac threshold_cases H :=
  unfold App.thresholds in H;
  repeat (apply elem_of_cons in H as [-> | H]); [.. | inversion H].




(** *** One run of the effect *)

(** The alerts of a run, told by their origin. *)
Lemma elem_of_spendingAlerts (now : JsDate) (cards : list Card.t)
    (expenses : JsMap.t string Q) (permission : string)
    (sent : gmap string bool) (a : App.Alert) :
  a ∈ App.spendingAlerts now cards expenses permission sent ↔
  permission = "granted"
  ∧ ∃ (card : Card.t) (t : Z),
      card ∈ cards ∧ t ∈ App.thresholds
      ∧ JsNumber.ge (App.percentageOf card (JsNumber.orZero (JsMap.get expenses (Card.id card))))
                    (JsNumber.ofZ t) = true
      ∧ App.notSent sent (App.notificationKey card now t) = true
      ∧ a = {| App.alertCard := card;
               App.alertPercentage :=
                 App.percentageOf card (JsNumber.orZero (JsMap.get expenses (Card.id card)));
               App.alertKey := App.notificationKey card now t |}.
Proof.
  unfold App.spendingAlerts.
  destruct (JsString.eqb permission "granted") eqn:Hp; cbn [negb].
  - apply JsString_eqb_true in Hp. subst permission.
    rewrite list_elem_of_In, in_flat_map. split.
    + intros (card & Hc & Ha). apply in_flat_map in Ha as (t & Ht & Ha).
      split; [reflexivity |]. exists card, t.
      split; [apply list_elem_of_In; exact Hc |].
      split; [apply list_elem_of_In; exact Ht |].
      destruct (JsNumber.ge _ _); [| inversion Ha].
      destruct (App.notSent _ _); [| inversion Ha].
      simpl in Ha. destruct Ha as [<- | []]. repeat split.
    + intros (_ & card & t & Hc & Ht & Hge & Hns & ->).
      exists card. split; [apply list_elem_of_In; exact Hc |].
      apply in_flat_map. exists t. split; [apply list_elem_of_In; exact Ht |].
      rewrite Hge, Hns. left. reflexivity.
  - apply JsString_eqb_false in Hp. split; [intros Hin; inversion Hin |].
    intros [Hg _]. contradiction.
Qed.


(** *** The record of sent keys *)



Lemma recordSent_other (alerts : list App.Alert) (sent : gmap string bool) (k : string) :
  k ∉ App.alertKey <$> alerts → App.recordSent alerts sent !! k = sent !! k.
Proof.
  unfold App.recordSent. revert sent.
  induction alerts as [|a alerts IH]; intros sent Hnin; [reflexivity |].
  simpl. rewrite fmap_cons in Hnin. apply not_elem_of_cons in Hnin as [Hne Hnin].
  rewrite IH by exact Hnin. apply lookup_insert_ne. congruence.
Qed.


(** *** Successive runs *)




(** *** At most one alert for a key *)



(** * Further properties *)

(** ** The transaction list *)

Lemma sumQ_app (l1 l2 : list Q) : (sumQ (l1 ++ l2) == sumQ l1 + sumQ l2)%Q.
Proof.
  induction l1 as [|a l1 IH]; simpl app.
  - change (sumQ []) with 0%Q. ring.
  - rewrite !sumQ_cons, IH. ring.
Qed.

(** X1. A confirmed deletion keeps, in their order, exactly the records
    whose identifier differs from the one given, and touches nothing but
    the transaction list and the banner; a declined one changes nothing. *)
Theorem handleDeleteTransaction_removes (transactionId : string) (st : App.State) :
  let st' := App.handleDeleteTransaction true transactionId st in
  App.transactions st' `sublist_of` App.transactions st
  ∧ (∀ tx : Transaction.t,
        tx ∈ App.transactions st' ↔
        tx ∈ App.transactions st ∧ Transaction.id tx ≠ transactionId)
  ∧ ((∀ tx : Transaction.t, tx ∈ App.transactions st → Transaction.id tx ≠ transactionId) →
     App.transactions st' = App.transactions st)
  ∧ App.cards st' = App.cards st
  ∧ App.sentNotifications st' = App.sentNotifications st
  ∧ App.successMessage st' = Some "Transaction deleted."
  ∧ App.handleDeleteTransaction false transactionId st = st.
Proof.
  intros st'. subst st'. unfold App.handleDeleteTransaction. simpl.
  split; [| split; [| split; [| repeat split]]].
  - induction (App.transactions st) as [|tx txs IH]; simpl; [constructor |].
    destruct (negb _); [apply sublist_skip | apply sublist_cons]; exact IH.
  - intros tx. rewrite !list_elem_of_In, filter_In, negb_true_iff, JsString_eqb_false.
    reflexivity.
  - intros Hnone. induction (App.transactions st) as [|tx txs IH]; simpl; [reflexivity |].
    rewrite (proj2 (JsString_eqb_false _ _) (Hnone tx (list_elem_of_here _ _))). simpl.
    f_equal. apply IH. intros tx' Hin. apply Hnone. apply list_elem_of_further. exact Hin.
Qed.

(** The deletion of a record that is not there. *)
Lemma handleDeleteTransaction_removes_witness :
  let st := Samples.store [Samples.visa]
              [Samples.tx "tx-1" "card-1" 20 "2024-06-01T10:00:00.000Z" Food] in
  App.transactions (App.handleDeleteTransaction true "tx-9" st) = App.transactions st.
Proof.
  intros st.
  apply (handleDeleteTransaction_removes "tx-9" st).
  intros tx Hin. apply list_elem_of_singleton in Hin as ->. discriminate.
Defined.

Section TransactionsAndSums.
Context `{Locale}.

Lemma monthlySpend_app (now : JsDate) (cardId : string) (l1 l2 : list Transaction.t) :
  (monthlySpend now cardId (l1 ++ l2)
   == monthlySpend now cardId l1 + monthlySpend now cardId l2)%Q.
Proof.
  unfold monthlySpend. rewrite List.filter_app, fmap_app. apply sumQ_app.
Qed.



(** X3. A save without a usable identifier appends one record, built from
    the save, the clock and nothing else, and leaves the records before
    it alone.  When the date it stamps reads back as the current month,
    the monthly spend read for the card of the save grows by the amount
    and the spend read for every other card stays as it is. *)
Theorem handleSaveTransaction_add (clock : Clock) (data : App.SaveData) (st : App.State) :
  App.truthyId (App.data_id data) = None →
  newDate (nowIso clock) = Some (today clock) →
  let st' := App.handleSaveTransaction clock data st in
  App.transactions st' = App.transactions st ++ [newTransaction clock data]
  ∧ App.cards st' = App.cards st
  ∧ (spentOn (today clock) st' (App.data_cardId data)
     == spentOn (today clock) st (App.data_cardId data) + App.data_amount data)%Q
  ∧ ∀ cardId : string,
      cardId ≠ App.data_cardId data →
      (spentOn (today clock) st' cardId == spentOn (today clock) st cardId)%Q.
Proof.
  intros Hnew Hdate st'. subst st'. unfold App.handleSaveTransaction. rewrite Hnew.
  simpl. split; [reflexivity |]. split; [reflexivity |].
  assert (Hmonth : App.inCurrentMonth (today clock) (newTransaction clock data) = true).
  { unfold App.inCurrentMonth, newTransaction. simpl. rewrite Hdate.
    rewrite !Z.eqb_refl. reflexivity. }
  assert (Hone : ∀ cardId : string,
             (monthlySpend (today clock) cardId [newTransaction clock data]
              == if bool_decide (App.data_cardId data = cardId)
                 then App.data_amount data else 0)%Q).
  { intros cardId. unfold monthlySpend. simpl List.filter. rewrite Hmonth.
    change (Transaction.cardId (newTransaction clock data)) with (App.data_cardId data).
    destruct (bool_decide (App.data_cardId data = cardId)); simpl andb; cbv iota.
    - rewrite fmap_cons, sumQ_cons. change (sumQ _) with 0%Q. simpl. ring.
    - reflexivity. }
  unfold spentOn. simpl. split.
  - rewrite !cardExpenses_value.
    change (@cons Transaction.t ?x []) with [x].
    rewrite monthlySpend_app, Hone. rewrite bool_decide_eq_true_2 by reflexivity. reflexivity.
  - intros cardId Hne. rewrite !cardExpenses_value, monthlySpend_app, Hone.
    rewrite bool_decide_eq_false_2 by congruence. ring.
Qed.
End TransactionsAndSums.

(** A purchase of 70 on a card that holds 250 this month. *)
Lemma handleSaveTransaction_add_witness :
  let st' := App.handleSaveTransaction Samples.clock purchase70 spent250 in
  App.transactions st' = App.transactions spent250 ++ [newTransaction Samples.clock purchase70]
  ∧ (@spentOn Samples.isoUtc Samples.june2024 st' "card-1" == 320)%Q.
Proof.
  intros st'.
  destruct (@handleSaveTransaction_add Samples.isoUtc Samples.clock purchase70 spent250
              eq_refl eq_refl) as (Htxs & _ & Hspend & _).
  split; [exact Htxs |].
  unfold st'. change Samples.june2024 with (today Samples.clock).
  change "card-1" with (App.data_cardId purchase70).
  rewrite Hspend. reflexivity.
Defined.

(** X4. The identifiers of the records after a save are the identifiers
    before it, in the same order, followed by the new identifier when the
    save made a record: a save never renames or reorders a record and an
    edit makes none. *)
Theorem handleSaveTransaction_ids (clock : Clock) (data : App.SaveData) (st : App.State) :
  Transaction.id <$> App.transactions (App.handleSaveTransaction clock data st)
  = (Transaction.id <$> App.transactions st)
    ++ match App.truthyId (App.data_id data) with
       | Some _ => []
       | None => ["tx-" +:+ JsString.ofZ (nowMs clock)]
       end.
Proof.
  unfold App.handleSaveTransaction.
  destruct (App.truthyId (App.data_id data)) as [editedId|] eqn:Hid; simpl.
  - rewrite app_nil_r. apply truthyId_Some in Hid as [Hid _].
    change (List.map ?f ?l) with (f <$> l).
    apply list_eq. intros i. rewrite !list_lookup_fmap.
    destruct (App.transactions st !! i) as [tx|]; [| reflexivity]. simpl. f_equal.
    destruct (JsString.eqb (Transaction.id tx) editedId) eqn:He; [| reflexivity].
    apply JsString_eqb_true in He. unfold App.spread. simpl. rewrite Hid. simpl.
    symmetry. exact He.
  - rewrite fmap_app. reflexivity.
Qed.

(** X5. Adding a record and then deleting it gives back the transaction
    list, provided no record already carried the identifier the clock
    produced. *)
Theorem add_then_delete (clock : Clock) (data : App.SaveData) (st : App.State) :
  App.truthyId (App.data_id data) = None →
  (∀ tx : Transaction.t,
      tx ∈ App.transactions st → Transaction.id tx ≠ "tx-" +:+ JsString.ofZ (nowMs clock)) →
  App.transactions
    (App.handleDeleteTransaction true ("tx-" +:+ JsString.ofZ (nowMs clock))
       (App.handleSaveTransaction clock data st))
  = App.transactions st.
Proof.
  intros Hnew Hfresh. unfold App.handleSaveTransaction. rewrite Hnew.
  unfold App.handleDeleteTransaction. simpl.
  rewrite List.filter_app. simpl.
  rewrite (proj2 (JsString_eqb_true _ _) eq_refl). simpl. rewrite app_nil_r.
  induction (App.transactions st) as [|tx txs IH]; simpl; [reflexivity |].
  rewrite (proj2 (JsString_eqb_false _ _) (Hfresh tx (list_elem_of_here _ _))). simpl.
  f_equal. apply IH. intros tx' Hin. apply Hfresh. apply list_elem_of_further. exact Hin.
Qed.

Lemma add_then_delete_witness :
  App.transactions
    (App.handleDeleteTransaction true "tx-1718000000000"
       (App.handleSaveTransaction Samples.clock purchase70 spent250))
  = App.transactions spent250.
Proof.
  apply (add_then_delete Samples.clock purchase70 spent250).
  - reflexivity.
  - intros tx Hin. apply list_elem_of_singleton in Hin as ->. discriminate.
Defined.

(** When the clock repeats an identifier, deleting the new record takes
    the older one with it. *)
Example delete_takes_both :
  let st := Samples.store [Samples.visa]
              [Samples.tx "tx-1718000000000" "card-1" 20 "2024-06-01T10:00:00.000Z" Food] in
  App.transactions
    (App.handleDeleteTransaction true "tx-1718000000000"
       (App.handleSaveTransaction Samples.clock purchase70 st))
  = [].
Proof. reflexivity. Qed.

(** ** SMS ingestion, all outcomes *)

Lemma find_first {A : Type} (p : A → bool) (before after : list A) (x : A) :
  p x = true → (∀ y : A, y ∈ before → p y = false) →
  List.find p (before ++ x :: after) = Some x.
Proof.
  intros Hx Hbefore. induction before as [|y before IH]; simpl.
  - rewrite Hx. reflexivity.
  - rewrite (Hbefore y (list_elem_of_here _ _)). apply IH.
    intros z Hz. apply Hbefore. apply list_elem_of_further. exact Hz.
Qed.

Lemma find_some_elem {A : Type} (p : A → bool) (l : list A) (x : A) :
  List.find p l = Some x → x ∈ l ∧ p x = true.
Proof.
  intros Hf. apply find_some in Hf as [Hin Hp]. split; [apply list_elem_of_In |]; assumption.
Qed.

(** X6. When the call settles with a parse result and some card ends in
    the digits it names, the first such card is charged: one record is
    appended with the identifier of that card, the merchant and the
    amount of the result as they are, whatever the sign of the amount,
    its category or [Other] when it has none, and the date and
    identifier given by the clock; the text box is cleared. *)
Theorem handleParseSms_commits (clock : Clock) (result : ParsedSmsData.t)
    (st : App.State) (before after : list Card.t) (matchingCard : Card.t) :
  App.cards st = before ++ matchingCard :: after →
  Card.last4 matchingCard = ParsedSmsData.cardLast4 result →
  (∀ c : Card.t, c ∈ before → Card.last4 c ≠ ParsedSmsData.cardLast4 result) →
  let st' := App.handleParseSms_settled clock (Some result) st in
  App.transactions st'
  = App.transactions st
    ++ [ {| Transaction.id := "tx-" +:+ JsString.ofZ (nowMs clock);
            Transaction.cardId := Card.id matchingCard;
            Transaction.merchant := ParsedSmsData.merchant result;
            Transaction.amount := ParsedSmsData.amount result;
            Transaction.date := nowIso clock;
            Transaction.category := default Other (ParsedSmsData.category result) |} ]
  ∧ App.smsInput st' = ""
  ∧ App.isLoading st' = false
  ∧ App.cards st' = App.cards st
  ∧ App.error st' = App.error st.
Proof.
  intros Hcards Hlast4 Hbefore st'. subst st'.
  unfold App.handleParseSms_settled. simpl. rewrite Hcards.
  rewrite (find_first _ before after matchingCard).
  - unfold App.handleSaveTransaction. simpl. repeat split. exact Hcards.
  - apply JsString_eqb_true. exact Hlast4.
  - intros c Hc. apply JsString_eqb_false. apply Hbefore. exact Hc.
Qed.

(** A refund read as a negative amount, without category, for the second
    of two cards. *)
Lemma handleParseSms_commits_witness :
  let result := ParsedSmsData.mk "Shop" (-50) "9876" None in
  let st := Samples.store [Samples.visa; Samples.amex] [] in
  let st' := App.handleParseSms_settled Samples.clock (Some result) st in
  App.transactions st'
  = [Transaction.mk "tx-1718000000000" "card-2" "Shop" (-50) "2024-06-10T06:13:20.000Z" Other]
  ∧ App.smsInput st' = "".
Proof.
  intros result st st'.
  destruct (handleParseSms_commits Samples.clock result st [Samples.visa] [] Samples.amex)
    as (Htxs & Hsms & _).
  - reflexivity.
  - reflexivity.
  - intros c Hc. apply list_elem_of_singleton in Hc as ->. discriminate.
  - split; [exact Htxs | exact Hsms].
Defined.

(** X7. The three ways the handler gives up.  A blank message and an
    empty card list are answered with their own errors before the service
    is consulted: the outcome is the same whatever the service would have
    said, and only the error changes.  A call that fails, or whose result
    lacks a merchant or the card digits, is answered with the generic
    error; nothing is committed and the text stays. *)
Theorem handleParseSms_errors (generateContent : string → option ParsedSmsData.t)
    (clock : Clock) (st : App.State) :
  let st' := App.handleParseSms generateContent clock st in
  (JsString.trim (App.smsInput st) = "" →
   st' = App.setError (Some "SMS message cannot be empty.") st)
  ∧ (JsString.trim (App.smsInput st) ≠ "" → App.cards st = [] →
     st' = App.setError (Some "Please add a credit card first.") st)
  ∧ (JsString.trim (App.smsInput st) ≠ "" → App.cards st ≠ [] →
     (generateContent (App.smsInput st) = None
      ∨ ∃ parsed : ParsedSmsData.t,
          generateContent (App.smsInput st) = Some parsed
          ∧ (ParsedSmsData.merchant parsed = "" ∨ ParsedSmsData.cardLast4 parsed = "")) →
     App.error st' = Some "Failed to parse SMS. Please try a different format."
     ∧ App.transactions st' = App.transactions st
     ∧ App.smsInput st' = App.smsInput st
     ∧ App.isLoading st' = false
     ∧ App.successMessage st' = None).
Proof.
  intros st'. subst st'. unfold App.handleParseSms. split; [| split].
  - intros ->. reflexivity.
  - intros Hsms ->. apply truthy_nonempty in Hsms. rewrite Hsms. reflexivity.
  - intros Hsms Hcards Hfail. apply truthy_nonempty in Hsms. rewrite Hsms. simpl.
    rewrite bool_decide_eq_false_2
      by (intros Hlen; apply Hcards; destruct (App.cards st); [reflexivity | discriminate]).
    assert (Hnone : App.parseSmsExpense generateContent (App.smsInput st) = None).
    { unfold App.parseSmsExpense. destruct Hfail as [-> | (parsed & -> & [-> | ->])].
      - reflexivity.
      - reflexivity.
      - rewrite andb_false_r. reflexivity. }
    rewrite Hnone. repeat split.
Qed.

(** A service that fails, asked about a message for a store with a card. *)
Lemma handleParseSms_errors_witness :
  let st := Samples.store [Samples.visa] [] in
  App.error (App.handleParseSms (λ _, None) Samples.clock st)
  = Some "Failed to parse SMS. Please try a different format.".
Proof.
  intros st.
  apply (proj2 (proj2 (handleParseSms_errors (λ _, None) Samples.clock st))).
  - discriminate.
  - discriminate.
  - left. reflexivity.
Defined.

(** X8. Whatever the message, the cards and the service, the handler
    leaves the card list and the record of sent notifications alone and
    does one of two things: it shows an error and commits nothing, or it
    appends exactly one record, charged to a card of the list that ends
    in the digits the service named, clears the text box and shows no
    error.  It never edits or removes a record. *)
Theorem handleParseSms_frame (generateContent : string → option ParsedSmsData.t)
    (clock : Clock) (st : App.State) :
  let st' := App.handleParseSms generateContent clock st in
  App.cards st' = App.cards st
  ∧ App.sentNotifications st' = App.sentNotifications st
  ∧ ((is_Some (App.error st') ∧ App.transactions st' = App.transactions st)
     ∨ (∃ (tx : Transaction.t) (card : Card.t) (parsed : ParsedSmsData.t),
           App.transactions st' = App.transactions st ++ [tx]
           ∧ card ∈ App.cards st
           ∧ Transaction.cardId tx = Card.id card
           ∧ generateContent (App.smsInput st) = Some parsed
           ∧ Card.last4 card = ParsedSmsData.cardLast4 parsed
           ∧ Transaction.merchant tx = ParsedSmsData.merchant parsed
           ∧ Transaction.merchant tx ≠ ""
           ∧ App.smsInput st' = ""
           ∧ App.error st' = None)).
Proof.
  intros st'. subst st'. unfold App.handleParseSms.
  destruct (negb (JsString.truthy (JsString.trim (App.smsInput st)))).
  { split; [reflexivity |]. split; [reflexivity |]. left. split; [eexists |]; reflexivity. }
  destruct (bool_decide (length (App.cards st) = 0%nat)).
  { split; [reflexivity |]. split; [reflexivity |]. left. split; [eexists |]; reflexivity. }
  unfold App.parseSmsExpense, App.handleParseSms_settled.
  destruct (generateContent (App.smsInput st)) as [parsed|] eqn:Hgen; simpl.
  2: { split; [reflexivity |]. split; [reflexivity |]. left. split; [eexists |]; reflexivity. }
  destruct (JsString.truthy (ParsedSmsData.merchant parsed)) eqn:Hm; simpl.
  2: { split; [reflexivity |]. split; [reflexivity |]. left. split; [eexists |]; reflexivity. }
  destruct (JsString.truthy (ParsedSmsData.cardLast4 parsed)) eqn:Hd; simpl.
  2: { split; [reflexivity |]. split; [reflexivity |]. left. split; [eexists |]; reflexivity. }
  destruct (List.find _ (App.cards st)) as [card|] eqn:Hfind; simpl.
  2: { split; [reflexivity |]. split; [reflexivity |]. left. split; [eexists |]; reflexivity. }
  apply find_some_elem in Hfind as [Hin Hcard]. apply JsString_eqb_true in Hcard.
  split; [reflexivity |]. split; [reflexivity |]. right.
  eexists _, card, parsed. unfold App.handleSaveTransaction. simpl.
  split; [reflexivity |]. split; [exact Hin |]. split; [reflexivity |].
  split; [reflexivity |]. split; [exact Hcard |]. split; [reflexivity |].
  split; [apply truthy_nonempty; exact Hm |]. split; reflexivity.
Qed.

(** ** The transaction editor *)

Lemma gt_iff_not_le (a : number) :
  JsNumber.gt a (JsNumber.ofZ 0) = true ↔
  JsNumber.isNaN a || JsNumber.le a (JsNumber.ofZ 0) = false.
Proof.
  unfold JsNumber.gt, JsNumber.le, JsNumber.isNaN.
  destruct a as [| [] | q]; simpl; try (split; congruence).
  destruct (q ?= inject_Z 0)%Q; split; congruence.
Qed.

(** X9. The transaction editor hands a save over exactly when the card,
    the merchant and the amount are filled in and the amount parses to a
    number greater than 0; the save then carries that number, which is
    never [NaN], zero or negative, and the identifier of the record being
    edited, if any.  Every other submission is rejected. *)
Theorem transaction_handleSubmit_positive (transactionToEdit : option Transaction.t)
    (cardId merchant amount : string) (category : Category) :
  let outcome := AddTransactionModal.handleSubmit transactionToEdit cardId merchant amount category in
  ((∃ data, outcome = AddTransactionModal.Submitted data) ↔
   cardId ≠ "" ∧ merchant ≠ "" ∧ amount ≠ ""
   ∧ JsNumber.gt (JsNumber.parseFloat amount) (JsNumber.ofZ 0) = true)
  ∧ (∀ data, outcome = AddTransactionModal.Submitted data →
       JsNumber.gt (AddTransactionModal.amount data) (JsNumber.ofZ 0) = true
       ∧ AddTransactionModal.amount data = JsNumber.parseFloat amount
       ∧ AddTransactionModal.id data = Transaction.id <$> transactionToEdit
       ∧ AddTransactionModal.cardId data = cardId
       ∧ AddTransactionModal.merchant data = merchant
       ∧ AddTransactionModal.category data = category)
  ∧ ((∃ data, outcome = AddTransactionModal.Submitted data)
     ∨ ∃ e, outcome = AddTransactionModal.Rejected e).
Proof.
  intros outcome. subst outcome. unfold AddTransactionModal.handleSubmit.
  rewrite <- !truthy_nonempty.
  destruct (JsString.truthy cardId), (JsString.truthy merchant), (JsString.truthy amount);
    simpl;
    try (split; [split; [intros [? [=]] | intros (? & ? & ? & ?); discriminate]
                | split; [intros ? [=] | right; eexists; reflexivity]]).
  destruct (JsNumber.isNaN _ || JsNumber.le _ _) eqn:Hchk.
  - split; [| split; [intros ? [=] | right; eexists; reflexivity]].
    split; [intros [? [=]] |]. intros (_ & _ & _ & Hgt).
    apply gt_iff_not_le in Hgt. congruence.
  - apply gt_iff_not_le in Hchk. split; [| split; [| left; eexists; reflexivity]].
    + split; [intros _; repeat split; exact Hchk | intros _; eexists; reflexivity].
    + intros data [= <-]. simpl. repeat split. exact Hchk.
Qed.

Lemma transaction_handleSubmit_fields (transactionToEdit : option Transaction.t)
    (cardId merchant amount : string) (category : Category)
    (data : AddTransactionModal.Submission) :
  AddTransactionModal.handleSubmit transactionToEdit cardId merchant amount category
  = AddTransactionModal.Submitted data →
  AddTransactionModal.id data = Transaction.id <$> transactionToEdit
  ∧ AddTransactionModal.cardId data = cardId
  ∧ AddTransactionModal.merchant data = merchant
  ∧ AddTransactionModal.category data = category.
Proof.
  unfold AddTransactionModal.handleSubmit.
  destruct (negb _ || negb _ || negb _); [discriminate |].
  destruct (JsNumber.isNaN _ || JsNumber.le _ _); [discriminate |].
  intros [= <-]. repeat split.
Qed.

(** X10. An edit made through the transaction editor keeps the
    identifier and the date of the record: every record with the
    identifier of the edited one takes the card, merchant, amount and
    category entered and keeps the rest, and the other records and the
    length of the list are unchanged. *)
Theorem modal_edit_keeps_id_and_date (clock : Clock) (st : App.State)
    (edited : Transaction.t) (cardId merchant amount : string) (category : Category)
    (data : AddTransactionModal.Submission) (q : Q) :
  Transaction.id edited ≠ "" →
  AddTransactionModal.handleSubmit (Some edited) cardId merchant amount category
  = AddTransactionModal.Submitted data →
  AddTransactionModal.amount data = Fin q →
  App.transactions (App.handleSaveTransaction clock (AddTransactionModal.saveData data q) st)
  = (λ tx, if JsString.eqb (Transaction.id tx) (Transaction.id edited)
           then {| Transaction.id := Transaction.id tx;
                   Transaction.cardId := cardId;
                   Transaction.merchant := merchant;
                   Transaction.amount := q;
                   Transaction.date := Transaction.date tx;
                   Transaction.category := category |}
           else tx) <$> App.transactions st.
Proof.
  intros Hid Hsub Hq.
  destruct (transaction_handleSubmit_fields (Some edited) cardId merchant amount category data Hsub)
    as (Hdid & Hc & Hm & Hcat).
  assert (Ht : App.truthyId (App.data_id (AddTransactionModal.saveData data q))
               = Some (Transaction.id edited)).
  { apply truthyId_Some. split; [| exact Hid].
    unfold AddTransactionModal.saveData. simpl. rewrite Hdid. reflexivity. }
  unfold App.handleSaveTransaction. rewrite Ht.
  simpl. change (List.map ?f ?l) with (f <$> l).
  apply list_fmap_ext. intros i tx _.
  destruct (JsString.eqb (Transaction.id tx) (Transaction.id edited)) eqn:He; [| reflexivity].
  apply JsString_eqb_true in He. unfold App.spread. simpl.
  rewrite Hdid, Hc, Hm, Hcat. simpl. rewrite He. reflexivity.
Qed.

(** The second of two records, edited to a new merchant and amount. *)
Lemma modal_edit_keeps_id_and_date_witness :
  let t1 := Samples.tx "tx-1" "card-1" 20 "2024-06-01T10:00:00.000Z" Food in
  let t2 := Samples.tx "tx-2" "card-1" 30 "2024-06-02T10:00:00.000Z" Fuel in
  let st := Samples.store [Samples.visa; Samples.amex] [t1; t2] in
  let data := {| AddTransactionModal.id := Some "tx-2";
                 AddTransactionModal.cardId := "card-2";
                 AddTransactionModal.merchant := "Cafe";
                 AddTransactionModal.amount := Fin (3550 # 100);
                 AddTransactionModal.category := Food |} in
  App.transactions
    (App.handleSaveTransaction Samples.clock (AddTransactionModal.saveData data (3550 # 100)) st)
  = [t1; Transaction.mk "tx-2" "card-2" "Cafe" (3550 # 100) "2024-06-02T10:00:00.000Z" Food].
Proof.
  intros t1 t2 st data.
  rewrite (modal_edit_keeps_id_and_date Samples.clock st t2 "card-2" "Cafe" "35.50" Food
             data (3550 # 100)).
  - reflexivity.
  - discriminate.
  - reflexivity.
  - reflexivity.
Defined.

(** ** The card editor and the card list *)

(** What a saved card tells about the submission it comes from. *)
Lemma handleSubmit_saved (clock : Clock) (pick : nat)
    (cardToEdit : option Card.t) (cards : list Card.t)
    (name last4 limit : string) (card : Card.t) :
  AddCardModal.handleSubmit clock pick cardToEdit cards name last4 limit
  = AddCardModal.Saved card →
  fieldChecks name last4 limit = true
  ∧ (∀ c : Card.t, c ∈ cards → AddCardModal.otherThanEdited cardToEdit c = true →
       nameKey c ≠ nameKey card ∧ Card.last4 c ≠ Card.last4 card)
  ∧ card = {| Card.id := match cardToEdit with
                         | Some edited => Card.id edited
                         | None => "card-" +:+ JsString.ofZ (nowMs clock)
                         end;
              Card.name := JsString.trim name;
              Card.last4 := last4;
              Card.limit := JsNumber.parseFloat limit;
              Card.gradient := match cardToEdit with
                               | Some edited => Card.gradient edited
                               | None => default "" (AddCardModal.gradients !! pick)
                               end |}.
Proof.
  unfold AddCardModal.handleSubmit.
  destruct (negb _ || negb _ || negb _) eqn:H1; [discriminate |].
  destruct (negb (AddCardModal.testFourDigits last4)) eqn:H2; [discriminate |].
  destruct (JsNumber.le _ _) eqn:H3; [discriminate |].
  destruct (existsb _ cards) eqn:Hname; [discriminate |].
  destruct (existsb _ cards) eqn:Hlast4 in |- *; [discriminate |].
  intros [= <-]. split; [apply fieldChecks_spec; auto |]. split; [| reflexivity].
  intros c Hc Hother. apply list_elem_of_In in Hc.
  unfold nameKey. simpl. split.
  - intros Heq.
    rewrite (trim_fixed_of_toLowerCase (JsString.trim name) name eq_refl) in Heq.
    assert (Hex : existsb (λ card, AddCardModal.otherThanEdited cardToEdit card
                     && JsString.eqb (JsString.toLowerCase (JsString.trim (Card.name card)))
                                     (JsString.toLowerCase (JsString.trim name))) cards = true).
    { apply existsb_exists. exists c. split; [exact Hc |].
      rewrite Hother. apply JsString_eqb_true. exact Heq. }
    congruence.
  - intros Heq.
    assert (Hex : existsb (λ card, AddCardModal.otherThanEdited cardToEdit card
                     && JsString.eqb (Card.last4 card) last4) cards = true).
    { apply existsb_exists. exists c. split; [exact Hc |].
      rewrite Hother. apply JsString_eqb_true. exact Heq. }
    congruence.
Qed.

(** X11. A submission whose digits are those of a card of the list other
    than the one being edited commits nothing; when its fields pass the
    checks made first and its name clashes with no other card, the error
    shown is the one about the digits. *)
Theorem handleSubmit_last4_uniqueness (clock : Clock) (pick : nat)
    (cardToEdit : option Card.t) (cards : list Card.t) (name last4 limit : string) :
  (∃ c : Card.t, c ∈ cards ∧ differentId cardToEdit c ∧ Card.last4 c = last4) →
  let outcome := AddCardModal.handleSubmit clock pick cardToEdit cards name last4 limit in
  (∃ e : string, outcome = AddCardModal.Rejected e)
  ∧ (fieldChecks name last4 limit = true →
     (∀ c : Card.t, c ∈ cards → differentId cardToEdit c → ¬ nameClash name c) →
     outcome = AddCardModal.Rejected "A card with these last 4 digits already exists.").
Proof.
  intros (c & Hin & Hdiff & Hsame) outcome. subst outcome.
  split.
  - destruct (AddCardModal.handleSubmit clock pick cardToEdit cards name last4 limit)
      as [e | card] eqn:Hout; [eexists; reflexivity |].
    apply handleSubmit_saved in Hout as (_ & Hall & ->).
    destruct (Hall c Hin (proj2 (otherThanEdited_spec _ _) Hdiff)) as [_ Hne].
    simpl in Hne. contradiction.
  - intros Hok Hnames. unfold AddCardModal.handleSubmit.
    apply fieldChecks_spec in Hok as (-> & -> & ->).
    replace (existsb _ cards) with false.
    + replace (existsb _ cards) with true; [reflexivity |].
      symmetry. apply existsb_exists. exists c. split; [apply list_elem_of_In; exact Hin |].
      rewrite (proj2 (otherThanEdited_spec _ _) Hdiff). apply JsString_eqb_true. exact Hsame.
    + symmetry. apply not_true_is_false. intros Htrue.
      apply existsb_exists in Htrue as (c' & Hin' & Hc').
      apply andb_true_iff in Hc' as [Hother Hname].
      apply (Hnames c').
      * apply list_elem_of_In. exact Hin'.
      * apply otherThanEdited_spec. exact Hother.
      * apply nameClash_trim. apply JsString_eqb_true. exact Hname.
Qed.

(** A new card under a new name with the digits of the first card. *)
Lemma handleSubmit_last4_uniqueness_witness :
  AddCardModal.handleSubmit Samples.clock 0 None [Samples.visa; Samples.amex]
    "Debit" "0427" "500"
  = AddCardModal.Rejected "A card with these last 4 digits already exists.".
Proof.
  apply (handleSubmit_last4_uniqueness Samples.clock 0 None [Samples.visa; Samples.amex]
           "Debit" "0427" "500").
  - exists Samples.visa. split; [apply list_elem_of_here |].
    split; [intros edited; discriminate | reflexivity].
  - reflexivity.
  - intros c Hc _ Hclash. apply nameClash_trim in Hclash.
    apply elem_of_cons in Hc as [-> | Hc]; [discriminate |].
    apply list_elem_of_singleton in Hc as ->. discriminate.
Defined.




(** Distinctness of the elements of a given list, by computation. *)
Ltac distinct_by_computation :=
  match goal with
  | |- NoDup ?l => exact (bool_decide_unpack (NoDup l) I)
  end.


(** X13. An edit made through the card editor replaces the card where it
    stands: with distinct identifiers in the list, saving what the editor
    accepts for the card at position [i] puts the saved card at [i],
    keeps its identifier and its gradient, takes the trimmed name, the
    digits and the parsed limit from the form, and adds no card. *)
Theorem modal_edit_replaces_in_place (clock : Clock) (pick : nat) (st : App.State)
    (i : nat) (edited : Card.t) (name last4 limit : string) (card : Card.t) :
  NoDup (Card.id <$> App.cards st) →
  App.cards st !! i = Some edited →
  AddCardModal.handleSubmit clock pick (Some edited) (App.cards st) name last4 limit
  = AddCardModal.Saved card →
  App.cards (App.handleSaveCard card st) = <[i := card]> (App.cards st)
  ∧ card = {| Card.id := Card.id edited;
              Card.name := JsString.trim name;
              Card.last4 := last4;
              Card.limit := JsNumber.parseFloat limit;
              Card.gradient := Card.gradient edited |}.
Proof.
  intros Hids Hi Hsaved.
  apply handleSubmit_saved in Hsaved as (_ & _ & Hcard).
  split; [| exact Hcard].
  assert (Hid : Card.id card = Card.id edited) by (rewrite Hcard; reflexivity).
  unfold App.handleSaveCard, App.findIndex.
  set (p := λ c : Card.t, JsString.eqb (Card.id c) (Card.id card)).
  destruct (findIndexFrom_spec p (App.cards st) 0 ltac:(lia))
    as [[Hm Hall] | (k & x & Hk & Hx & Hpx & _)].
  - exfalso. rewrite Forall_forall in Hall.
    assert (He : edited ∈ App.cards st) by (apply list_elem_of_lookup; eauto).
    specialize (Hall edited He). apply JsString_eqb_false in Hall. congruence.
  - rewrite Hk. replace (-1 <? 0 + Z.of_nat k) with true by (symmetry; apply Z.ltb_lt; lia).
    replace (Z.to_nat (0 + Z.of_nat k)) with k by lia. simpl.
    apply JsString_eqb_true in Hpx.
    assert (k = i) as ->; [| reflexivity].
    apply (proj1 (NoDup_alt _) Hids k i (Card.id card)).
    + rewrite list_lookup_fmap, Hx. simpl. congruence.
    + rewrite list_lookup_fmap, Hi. simpl. congruence.
Qed.

(** The second of two cards gets a new name and limit. *)
Lemma modal_edit_replaces_in_place_witness :
  let st := Samples.store [Samples.visa; Samples.amex] [] in
  let card := Card.mk "card-2" "Amex Blue" "9876" (Fin 7000) "from-green-400 to-blue-500" in
  App.cards (App.handleSaveCard card st) = [Samples.visa; card].
Proof.
  intros st card.
  destruct (modal_edit_replaces_in_place Samples.clock 0 st 1 Samples.amex
              " Amex Blue" "9876" "7000" card) as [Hcards _].
  - distinct_by_computation.
  - reflexivity.
  - reflexivity.
  - rewrite Hcards. reflexivity.
Defined.

(** X14. What the digits field can hold: the handler of the field keeps
    the digits typed, in order, up to four of them.  Its value is always
    made of at most four digits, is left as it is when run through the
    handler again, and passes the four-digit check of the submission
    exactly when at least four digits were typed. *)
Theorem sanitizeLast4_spec (value : string) :
  let digits := List.filter JsString.isDigit (String.list_ascii_of_string value) in
  let field := AddCardModal.sanitizeLast4 value in
  String.list_ascii_of_string field = take 4 digits
  ∧ (String.length field ≤ 4)%nat
  ∧ Forall (λ c, c ∈ digitChars) (String.list_ascii_of_string field)
  ∧ AddCardModal.sanitizeLast4 field = field
  ∧ (AddCardModal.testFourDigits field = true ↔ (4 ≤ length digits)%nat).
Proof.
  intros digits field. subst field. unfold AddCardModal.sanitizeLast4. fold digits.
  assert (Hdigits : Forall (λ c, JsString.isDigit c = true) digits).
  { apply Forall_forall. intros c Hc. apply list_elem_of_In, filter_In in Hc. apply Hc. }
  assert (Htake : Forall (λ c, JsString.isDigit c = true) (take 4 digits))
    by (apply Forall_take; exact Hdigits).
  rewrite String.list_ascii_of_string_of_list_ascii.
  split; [reflexivity |]. split; [| split; [| split]].
  - rewrite <- (String.string_of_list_ascii_of_string (String.string_of_list_ascii _)).
    rewrite String.list_ascii_of_string_of_list_ascii.
    assert (Hlen : ∀ l : list ascii, String.length (String.string_of_list_ascii l) = length l).
    { induction l as [|c l IH]; simpl; [reflexivity | rewrite IH; reflexivity]. }
    rewrite Hlen, length_take. lia.
  - eapply Forall_impl; [exact Htake |]. intros c Hc. apply isDigit_spec. exact Hc.
  - assert (Hkeep : List.filter JsString.isDigit (take 4 digits) = take 4 digits).
    { induction Htake as [|c l Hc _ IH]; simpl; [reflexivity |].
      rewrite Hc. f_equal. exact IH. }
    rewrite Hkeep, take_take, Nat.min_id. reflexivity.
  - rewrite testFourDigits_spec. split.
    + intros (a & b & c & d & Heq & _).
      apply (f_equal String.list_ascii_of_string) in Heq.
      rewrite String.list_ascii_of_string_of_list_ascii in Heq.
      apply (f_equal length) in Heq. rewrite length_take in Heq.
      change (length (String.list_ascii_of_string _)) with 4%nat in Heq. lia.
    + intros Hlen.
      destruct digits as [|a [|b [|c [|d rest]]]]; simpl in Hlen; try lia.
      exists a, b, c, d. split; [reflexivity |].
      simpl in Htake. eapply Forall_impl; [exact Htake |].
      intros x Hx. apply isDigit_spec. exact Hx.
Qed.

(** ** The transaction listing *)

Lemma filter_Permutation {A : Type} (p : A → bool) (l l' : list A) :
  l ≡ₚ l' → List.filter p l ≡ₚ List.filter p l'.
Proof.
  induction 1 as [| x l l' _ IH | x y l | l l' l'' _ IH1 _ IH2]; simpl.
  - reflexivity.
  - destruct (p x); [rewrite IH |]; [reflexivity | exact IH].
  - destruct (p x), (p y); try reflexivity. apply Permutation_swap.
  - rewrite IH1. exact IH2.
Qed.

Lemma filter_StronglySorted {A : Type} (R : A → A → Prop) (p : A → bool) (l : list A) :
  StronglySorted R l → StronglySorted R (List.filter p l).
Proof.
  induction 1 as [|x l _ IH Hx]; simpl; [constructor |].
  destruct (p x); [| exact IH]. constructor; [exact IH |].
  apply Forall_forall. intros y Hy. rewrite Forall_forall in Hx. apply Hx.
  apply list_elem_of_In in Hy. apply filter_In in Hy as [Hy _]. apply list_elem_of_In. exact Hy.
Qed.

Section ListingFacts.
Context `{Epoch}.

Lemma byDateDescending_gt (x y : Transaction.t) :
  dated x → dated y →
  (App.gtQ (App.byDateDescending x y) 0 = true ↔ timeOf x < timeOf y).
Proof.
  intros [tx Hx] [ty Hy]. unfold App.byDateDescending, timeOf. rewrite Hx, Hy. simpl.
  rewrite gtQ_spec. unfold Qlt. simpl. lia.
Qed.

Lemma insertBy_descending (x : Transaction.t) (l : list Transaction.t) :
  dated x → Forall dated l →
  StronglySorted (λ a b, timeOf b <= timeOf a) l →
  StronglySorted (λ a b, timeOf b <= timeOf a) (App.insertBy App.byDateDescending x l).
Proof.
  intros Hx Hl Hsorted. induction Hsorted as [|y l Hsorted IH Hy]; simpl.
  - repeat constructor.
  - apply Forall_cons in Hl as [Hdy Hl].
    destruct (App.gtQ (App.byDateDescending x y) 0) eqn:Hcmp.
    + apply (byDateDescending_gt x y Hx Hdy) in Hcmp.
      constructor; [apply IH; exact Hl |].
      rewrite (insertBy_Permutation App.byDateDescending x l).
      constructor; [lia | exact Hy].
    + assert (Hle : timeOf y <= timeOf x).
      { destruct (Z.le_gt_cases (timeOf y) (timeOf x)) as [Hle | Hlt]; [exact Hle |].
        apply (byDateDescending_gt x y Hx Hdy) in Hlt. congruence. }
      constructor; [constructor; assumption |].
      constructor; [exact Hle |].
      eapply Forall_impl; [exact Hy |]. intros z Hz. simpl in Hz. lia.
Qed.

Lemma sort_descending (l : list Transaction.t) :
  Forall dated l →
  StronglySorted (λ a b, timeOf b <= timeOf a) (App.sort App.byDateDescending l).
Proof.
  induction l as [|x l IH]; intros Hl; [constructor |].
  apply Forall_cons in Hl as [Hx Hl]. unfold App.sort in *. simpl.
  apply insertBy_descending; [exact Hx | | apply IH; exact Hl].
  change (foldr (App.insertBy App.byDateDescending) [] l)
    with (App.sort App.byDateDescending l).
  rewrite sort_Permutation. exact Hl.
Qed.

(** X15. The listing shows every transaction, once, when the filter is
    "all", and otherwise every transaction of the selected card and no
    other, each once: it neither drops nor repeats nor invents a record.
    When every date can be read, the listing runs from the latest to the
    earliest. *)
Theorem filteredTransactions_listing (transactions : list Transaction.t)
    (selectedCardFilter : string) :
  App.filteredTransactions transactions selectedCardFilter
  ≡ₚ (if bool_decide (selectedCardFilter = "all") then transactions
      else List.filter (λ tx, bool_decide (Transaction.cardId tx = selectedCardFilter))
             transactions)
  ∧ (∀ tx : Transaction.t,
        tx ∈ App.filteredTransactions transactions selectedCardFilter ↔
        tx ∈ transactions
        ∧ (selectedCardFilter = "all" ∨ Transaction.cardId tx = selectedCardFilter))
  ∧ (Forall dated transactions →
     StronglySorted (λ a b, timeOf b <= timeOf a)
       (App.filteredTransactions transactions selectedCardFilter)).
Proof.
  assert (Hperm : App.filteredTransactions transactions selectedCardFilter
    ≡ₚ (if bool_decide (selectedCardFilter = "all") then transactions
        else List.filter (λ tx, bool_decide (Transaction.cardId tx = selectedCardFilter))
               transactions)).
  { unfold App.filteredTransactions, JsString.eqb.
    destruct (bool_decide (selectedCardFilter = "all")).
    - apply sort_Permutation.
    - apply filter_Permutation, sort_Permutation. }
  split; [exact Hperm |]. split.
  - intros tx. rewrite Hperm. destruct (bool_decide_reflect (selectedCardFilter = "all")) as [Hall|Hne].
    + split; [intros Hin; split; [exact Hin | left; exact Hall] | intros [Hin _]; exact Hin].
    + rewrite list_elem_of_In, filter_In, bool_decide_eq_true, <- list_elem_of_In.
      split; [intros [Hin Hc]; split; [exact Hin | right; exact Hc] |].
      intros [Hin [Hall | Hc]]; [contradiction | split; assumption].
  - intros Hdated. unfold App.filteredTransactions.
    destruct (JsString.eqb selectedCardFilter "all").
    + apply sort_descending. exact Hdated.
    + apply filter_StronglySorted, sort_descending. exact Hdated.
Qed.
End ListingFacts.

(** Three records of two cards, listed for the first card. *)
Lemma filteredTransactions_listing_witness :
  let txs := [Samples.tx "tx-1" "card-1" 20 "2024-06-01T10:00:00.000Z" Food;
              Samples.tx "tx-2" "card-2" 5 "2024-06-02T10:00:00.000Z" Food;
              Samples.tx "tx-3" "card-1" 30 "2024-06-03T10:00:00.000Z" Travel] in
  StronglySorted (λ a b, @timeOf isoDigits b <= @timeOf isoDigits a)
    (@App.filteredTransactions isoDigits txs "card-1")
  ∧ Transaction.id <$> @App.filteredTransactions isoDigits txs "card-1" = ["tx-3"; "tx-1"].
Proof.
  intros txs. split; [| reflexivity].
  apply (@filteredTransactions_listing isoDigits txs "card-1").
  repeat constructor; eexists; reflexivity.
Defined.

(** ** The pie chart *)

Lemma isZero_spec (q : Q) : JsNumber.isZero q = true ↔ (q == 0)%Q.
Proof.
  unfold JsNumber.isZero, Qeq. simpl. rewrite Z.eqb_eq. lia.
Qed.

Lemma foldl_values (data : list App.PieEntry) (start : Q) :
  (foldl (λ acc entry, (acc + App.value entry)%Q) start data
   == start + sumQ (App.value <$> data))%Q.
Proof.
  revert start. induction data as [|e data IH]; intros start; simpl foldl.
  - change (sumQ _) with 0%Q. ring.
  - rewrite IH, fmap_cons, sumQ_cons. ring.
Qed.




(** The grey disc stands for values that sum to zero. *)
Lemma PieChart_disc (data : list App.PieEntry) :
  App.PieChart data = None ↔ (sumQ (App.value <$> data) == 0)%Q.
Proof.
  unfold App.PieChart.
  pose proof (foldl_values data 0) as Htotal.
  set (total := foldl _ 0%Q data) in *.
  assert (Hsum : (total == sumQ (App.value <$> data))%Q) by (rewrite Htotal; ring).
  destruct (JsNumber.isZero total) eqn:Hz.
  - apply isZero_spec in Hz. split; [intros _; rewrite <- Hsum; exact Hz | reflexivity].
  - split; [discriminate |]. intros H0. exfalso.
    assert (Hz' : JsNumber.isZero total = true) by (apply isZero_spec; rewrite Hsum; exact H0).
    congruence.
Qed.



Section ChartOfSummary.
Context `{Locale}.

Lemma summary_rows_positive (now : JsDate) (transactions : list Transaction.t)
    (row : App.PieEntry) :
  row ∈ (App.monthlySummary now transactions).1 → (0 < App.value row)%Q.
Proof.
  rewrite monthlySummary_unfold.
  destruct (foldl (summaryStep now) (summary0, 0%Q) transactions) as [summary total].
  cbn [fst]. rewrite sort_Permutation. intros Hrow.
  apply list_elem_of_In, in_map_iff in Hrow as ([cat a] & <- & Hin).
  apply filter_In in Hin as [_ Hpos]. apply gtQ_spec. exact Hpos.
Qed.

(** X17. For the rows of the monthly category summary the chart is drawn
    whenever there is a row: the grey disc stands for an empty summary
    only, also when negative amounts have brought the total of the month
    to zero or below. *)
Theorem PieChart_of_summary (now : JsDate) (transactions : list Transaction.t) :
  App.PieChart (App.monthlySummary now transactions).1 = None ↔
  (App.monthlySummary now transactions).1 = [].
Proof.
  rewrite PieChart_disc.
  pose proof (summary_rows_positive now transactions) as Hpos.
  destruct (App.monthlySummary now transactions).1 as [|row rows].
  - split; reflexivity.
  - split; [| discriminate]. intros Hzero. exfalso.
    assert (Hge : ∀ l : list App.PieEntry,
               (∀ r, r ∈ l → (0 < App.value r)%Q) → (0 <= sumQ (App.value <$> l))%Q).
    { induction l as [|r l IH]; intros Hl; [apply Qle_refl |].
      rewrite fmap_cons, sumQ_cons.
      apply Qle_trans with (0 + 0)%Q; [apply Qle_refl |].
      apply Qplus_le_compat.
      - apply Qlt_le_weak, Hl, list_elem_of_here.
      - apply IH. intros r' Hr'. apply Hl, list_elem_of_further, Hr'. }
    rewrite fmap_cons, sumQ_cons in Hzero.
    assert (Hrow : (0 < App.value row)%Q) by (apply Hpos, list_elem_of_here).
    assert (Hrest : (0 <= sumQ (App.value <$> rows))%Q).
    { apply Hge. intros r Hr. apply Hpos, list_elem_of_further, Hr. }
    apply (Qlt_irrefl 0). rewrite <- Hzero at 2.
    apply Qlt_le_trans with (App.value row + 0)%Q.
    + rewrite Qplus_0_r. exact Hrow.
    + apply Qplus_le_compat; [apply Qle_refl | exact Hrest].
Qed.
End ChartOfSummary.

(** ** The progress bar and the notification *)

Lemma repeatCount_integer (q : Q) (z : Z) :
  (q == inject_Z z)%Q →
  JsNumber.repeatCount (Fin q) = if z <? 0 then None else Some (Z.to_nat z).
Proof.
  intros Hq. unfold JsNumber.repeatCount.
  assert (Hz : Qnum q ÷ Z.pos (Qden q) = z).
  { unfold Qeq in Hq. simpl in Hq. rewrite Z.mul_1_r in Hq. rewrite Hq.
    apply Z.quot_mul. discriminate. }
  rewrite Hz. reflexivity.
Qed.

(** The number of filled blocks [createProgressBar] computes for a finite
    percentage. *)
Lemma filledBlocks_bounds (q : Q) :
  let n := Qfloor (q / inject_Z 100 * inject_Z 10 + (1 # 2))%Q in
  (n < 0 ↔ (q < -5)%Q) ∧ (10 < n ↔ (105 <= q)%Q)
  ∧ (inject_Z n - (1 # 2) <= q / 10 < inject_Z n + (1 # 2))%Q.
Proof.
  intros n.
  assert (Hx : (q / inject_Z 100 * inject_Z 10 + (1 # 2) == q / 10 + (1 # 2))%Q)
    by (field; discriminate).
  pose proof (Qfloor_le (q / inject_Z 100 * inject_Z 10 + (1 # 2))%Q) as Hlo.
  pose proof (Qlt_floor (q / inject_Z 100 * inject_Z 10 + (1 # 2))%Q) as Hhi.
  fold n in Hlo, Hhi. rewrite Hx in Hlo, Hhi.
  rewrite inject_Z_plus in Hhi. change (inject_Z 1) with 1%Q in Hhi.
  assert (Hq10 : (q / 10 == q * (1 # 10))%Q) by (field; discriminate).
  rewrite Hq10 in *.
  assert (Hint : ∀ a b : Z, a <= b → (inject_Z a <= inject_Z b)%Q)
    by (intros a b Hab; rewrite <- Zle_Qle; exact Hab).
  clearbody n. clear Hx Hq10.
  split; [| split].
  - split.
    + intros Hn. pose proof (Hint n (-1) ltac:(lia)) as Hn'.
      change (inject_Z (-1)) with (-1 # 1)%Q in Hn'. lra.
    + intros Hq. destruct (Z.lt_ge_cases n 0) as [Hlt | Hge]; [exact Hlt |].
      pose proof (Hint 0 n Hge) as Hn'. change (inject_Z 0) with 0%Q in Hn'. lra.
  - split.
    + intros Hn. pose proof (Hint 11 n ltac:(lia)) as Hn'.
      change (inject_Z 11) with 11%Q in Hn'. lra.
    + intros Hq. destruct (Z.lt_ge_cases 10 n) as [Hlt | Hge]; [exact Hlt |].
      pose proof (Hint n 10 Hge) as Hn'. change (inject_Z 10) with 10%Q in Hn'. lra.
  - lra.
Qed.

Lemma createProgressBar_finite (q : Q) :
  let n := Qfloor (q / inject_Z 100 * inject_Z 10 + (1 # 2))%Q in
  App.createProgressBar (Fin q)
  = if (n <? 0) || (10 <? n) then None
    else Some {| App.blocks := replicate (Z.to_nat n) App.Filled
                               ++ replicate (Z.to_nat (10 - n)) App.Blank;
                 App.caption := JsNumber.toFixed1 q +:+ "% Used" |}.
Proof.
  intros n. unfold App.createProgressBar.
  change (JsNumber.round _) with (Fin (inject_Z n)).
  change (JsNumber.sub (JsNumber.ofZ 10) (Fin (inject_Z n)))
    with (Fin (inject_Z 10 - inject_Z n)).
  rewrite (repeatCount_integer (inject_Z n) n) by reflexivity.
  rewrite (repeatCount_integer (inject_Z 10 - inject_Z n) (10 - n))
    by (unfold Qminus; rewrite <- inject_Z_opp, <- inject_Z_plus; reflexivity).
  destruct (Z.ltb_spec n 0) as [Hn | Hn]; [reflexivity |].
  destruct (Z.ltb_spec (10 - n) 0) as [Hm | Hm];
    destruct (Z.ltb_spec 10 n) as [Hk | Hk]; try lia; reflexivity.
Qed.

(** [createProgressBar] throws below -5 and from 105 on, and nowhere
    else. *)
Lemma createProgressBar_throws (q : Q) :
  App.createProgressBar (Fin q) = None ↔ (q < -5)%Q ∨ (105 <= q)%Q.
Proof.
  rewrite createProgressBar_finite.
  destruct (filledBlocks_bounds q) as (Hneg & Hbig & _).
  set (n := Qfloor _) in *.
  destruct (Z.ltb_spec n 0) as [Hn | Hn]; simpl.
  - split; [intros _; left; apply Hneg; exact Hn | reflexivity].
  - destruct (Z.ltb_spec 10 n) as [Hk | Hk].
    + split; [intros _; right; apply Hbig; exact Hk | reflexivity].
    + split; [discriminate |].
      intros [Hq | Hq]; [apply Hneg in Hq | apply Hbig in Hq]; lia.
Qed.



Lemma ge_finite (q : Q) (t : Z) :
  JsNumber.ge (Fin q) (JsNumber.ofZ t) = true ↔ (inject_Z t <= q)%Q.
Proof.
  unfold JsNumber.ge, JsNumber.ofZ. simpl.
  destruct (q ?= inject_Z t)%Q eqn:Hc.
  - apply Qeq_alt in Hc. split; [intros _; lra | reflexivity].
  - apply Qlt_alt in Hc. split; [discriminate | lra].
  - apply Qgt_alt in Hc. split; [intros _; lra | reflexivity].
Qed.

Lemma gt_finite (q : Q) (t : Z) :
  JsNumber.gt (Fin q) (JsNumber.ofZ t) = true ↔ (inject_Z t < q)%Q.
Proof.
  unfold JsNumber.gt, JsNumber.ofZ. simpl.
  destruct (q ?= inject_Z t)%Q eqn:Hc.
  - apply Qeq_alt in Hc. split; [discriminate | lra].
  - apply Qlt_alt in Hc. split; [discriminate | lra].
  - apply Qgt_alt in Hc. split; [intros _; lra | reflexivity].
Qed.

Lemma gt_finite_false (q : Q) (t : Z) :
  JsNumber.gt (Fin q) (JsNumber.ofZ t) = false ↔ (q <= inject_Z t)%Q.
Proof.
  rewrite <- not_true_iff_false, gt_finite. split; [apply Qnot_lt_le | apply Qle_not_lt].
Qed.




(** X20. The colour of the progress bar changes strictly above 30, 50
    and 85 percent, while the alert of a threshold is due from the
    threshold on: at exactly 30, 50 or 85 percent the alert is due and
    the bar still shows the colour of the band below. *)
Theorem getProgressBarColor_bands (q : Q) :
  (App.getProgressBarColor (Fin q) = "bg-green-500" ↔ (q <= 30)%Q)
  ∧ (App.getProgressBarColor (Fin q) = "bg-blue-500" ↔ (30 < q <= 50)%Q)
  ∧ (App.getProgressBarColor (Fin q) = "bg-yellow-500" ↔ (50 < q <= 85)%Q)
  ∧ (App.getProgressBarColor (Fin q) = "bg-red-500" ↔ (85 < q)%Q)
  ∧ (∀ t : Z, t ∈ App.thresholds →
       (JsNumber.ge (Fin q) (JsNumber.ofZ t) = true ↔ (inject_Z t <= q)%Q))
  ∧ App.getProgressBarColor NaN = "bg-green-500".
Proof.
  assert (Hall : ∀ t : Z, t ∈ App.thresholds →
            (JsNumber.ge (Fin q) (JsNumber.ofZ t) = true ↔ (inject_Z t <= q)%Q))
    by (intros t _; apply ge_finite).
  unfold App.getProgressBarColor.
  destruct (JsNumber.gt (Fin q) (JsNumber.ofZ 85)) eqn:G85;
    [apply gt_finite in G85 | apply gt_finite_false in G85];
    [| destruct (JsNumber.gt (Fin q) (JsNumber.ofZ 50)) eqn:G50;
       [apply gt_finite in G50 | apply gt_finite_false in G50];
       [| destruct (JsNumber.gt (Fin q) (JsNumber.ofZ 30)) eqn:G30;
          [apply gt_finite in G30 | apply gt_finite_false in G30]]];
    unfold inject_Z in *;
    repeat apply conj; try exact Hall; intros;
    first [reflexivity | congruence | lra | (exfalso; lra)].
Qed.

(** ** The card stack *)

Lemma handleDragEnd_step (cardsLength : Z) (st : App.Stack) :
  let st' := App.handleDragEnd cardsLength st in
  App.dragInfo st' = {| App.isDragging := false; App.startX := 0; App.dragOffset := 0 |}
  ∧ ((-80 <= App.dragOffset (App.dragInfo st) <= 80)%Q →
     App.activeCardIndex st' = App.activeCardIndex st)
  ∧ (1 <= cardsLength → 0 <= App.activeCardIndex st <= cardsLength - 1 →
     0 <= App.activeCardIndex st' <= cardsLength - 1
     ∧ Z.abs (App.activeCardIndex st' - App.activeCardIndex st) <= 1).
Proof.
  intros st'. subst st'. unfold App.handleDragEnd, App.dragThreshold. simpl.
  split; [reflexivity |].
  destruct (App.gtQ (- (80)) (App.dragOffset (App.dragInfo st))) eqn:Hleft.
  - apply gtQ_spec in Hleft. split; [intros Hin; lra | lia].
  - destruct (App.gtQ (App.dragOffset (App.dragInfo st)) 80) eqn:Hright.
    + apply gtQ_spec in Hright. split; [intros Hin; lra | lia].
    + split; [reflexivity | lia].
Qed.

(** X21. Swiping through the stack.  With at least one card and the
    active index on a card, the index stays on a card through any
    succession of presses, moves and releases; a release moves it by one
    position at most and only after a drag of more than 80 pixels, and it
    always ends the drag.  With no card or a single one, presses are
    ignored and the index does not move.  A change of the number of cards
    makes the last card the active one. *)
Theorem stack_index_in_range (cardsLength : Z) (gestures : list Gesture) (st : App.Stack) :
  (1 <= cardsLength → 0 <= App.activeCardIndex st <= cardsLength - 1 →
   0 <= App.activeCardIndex (foldl (gesture cardsLength) st gestures) <= cardsLength - 1)
  ∧ (cardsLength <= 1 →
     App.isDragging (App.dragInfo st) = false →
     (App.dragOffset (App.dragInfo st) == 0)%Q →
     App.activeCardIndex (foldl (gesture cardsLength) st gestures) = App.activeCardIndex st)
  ∧ (let st' := App.handleDragEnd cardsLength st in
     App.isDragging (App.dragInfo st') = false
     ∧ ((-80 <= App.dragOffset (App.dragInfo st) <= 80)%Q →
        App.activeCardIndex st' = App.activeCardIndex st)
     ∧ (1 <= cardsLength → 0 <= App.activeCardIndex st <= cardsLength - 1 →
        Z.abs (App.activeCardIndex st' - App.activeCardIndex st) <= 1))
  ∧ (1 <= cardsLength →
     App.activeCardIndex (App.showLastCard cardsLength st) = cardsLength - 1).
Proof.
  split; [| split; [| split]];
    [| | | intros Hn; unfold App.showLastCard;
           replace (0 <? cardsLength) with true by (symmetry; apply Z.ltb_lt; lia);
           reflexivity].
  - intros Hn. revert st. induction gestures as [|g gestures IH]; intros st Hi; [exact Hi |].
    simpl. apply IH. destruct g as [x | x |]; simpl.
    + unfold App.handleDragStart. destruct (cardsLength <=? 1); exact Hi.
    + unfold App.handleDragMove. destruct (negb _); exact Hi.
    + apply (handleDragEnd_step cardsLength st); assumption.
  - intros Hn. revert st. induction gestures as [|g gestures IH]; intros st Hidle Hzero;
      [reflexivity |].
    simpl. destruct g as [x | x |]; simpl.
    + unfold App.handleDragStart.
      replace (cardsLength <=? 1) with true by (symmetry; apply Z.leb_le; exact Hn).
      apply IH; assumption.
    + unfold App.handleDragMove. rewrite Hidle. simpl. apply IH; assumption.
    + destruct (handleDragEnd_step cardsLength st) as (Hreset & Hstay & _).
      rewrite IH.
      * apply Hstay. lra.
      * rewrite Hreset. reflexivity.
      * rewrite Hreset. reflexivity.
  - destruct (handleDragEnd_step cardsLength st) as (Hreset & Hstay & Hstep).
    split; [rewrite Hreset; reflexivity |]. split; [exact Hstay |].
    intros Hn Hi. apply Hstep; assumption.
Qed.

(** Three cards, the last one active: a swipe to the right by 120 pixels
    shows the card before it, a swipe by 60 does not move. *)
Lemma stack_index_in_range_witness :
  let st := {| App.activeCardIndex := 2;
               App.dragInfo := {| App.isDragging := false; App.startX := 0;
                                  App.dragOffset := 0 |} |} in
  0 <= App.activeCardIndex (foldl (gesture 3) st [Press 100; Move 220; Release]) <= 3 - 1
  ∧ App.activeCardIndex (foldl (gesture 3) st [Press 100; Move 220; Release]) = 1
  ∧ App.activeCardIndex (foldl (gesture 3) st [Press 100; Move 160; Release]) = 2.
Proof.
  intros st. split; [| split; reflexivity].
  apply (proj1 (stack_index_in_range 3 [Press 100; Move 220; Release] st)).
  - lia.
  - simpl. lia.
Defined.

(** ** The notifications of a run *)

Lemma percentageOf_is_finite (card : Card.t) (spent : Q) :
  ∃ q : Q, App.percentageOf card spent = Fin q.
Proof.
  unfold App.percentageOf.
  destruct (JsNumber.gt (Card.limit card) (JsNumber.ofZ 0)) eqn:Hgt; [| eexists; reflexivity].
  apply gt_zero_cases in Hgt as [-> | (l & -> & _ & Hnz)]; simpl.
  - eexists. reflexivity.
  - rewrite Hnz. eexists. reflexivity.
Qed.

(** Every alert that is due carries a finite percentage of 30 or more. *)
Lemma due_alert_percentage (now : JsDate) (cards : list Card.t)
    (expenses : JsMap.t string Q) (permission : string)
    (sent : gmap string bool) (a : App.Alert) :
  a ∈ App.spendingAlerts now cards expenses permission sent →
  ∃ q : Q, App.alertPercentage a = Fin q ∧ (30 <= q)%Q.
Proof.
  intros Ha. apply elem_of_spendingAlerts in Ha as (_ & card & t & _ & Ht & Hge & _ & ->).
  simpl. destruct (percentageOf_is_finite card
                     (JsNumber.orZero (JsMap.get expenses (Card.id card)))) as [q Hq].
  rewrite Hq in *. exists q. split; [reflexivity |].
  apply ge_finite in Hge. threshold_cases Ht; unfold inject_Z in Hge; lra.
Qed.

Lemma notifications_completed (alerts : list App.Alert) :
  (∀ a : App.Alert, a ∈ alerts → ∃ q : Q, App.alertPercentage a = Fin q ∧ (30 <= q)%Q) →
  ((App.notifications alerts).2 = true ↔
   ∀ a : App.Alert, a ∈ alerts → ∃ q : Q, App.alertPercentage a = Fin q ∧ (q < 105)%Q)
  ∧ ((App.notifications alerts).2 = true →
     length (App.notifications alerts).1 = length alerts).
Proof.
  induction alerts as [|a alerts IH]; intros Hdue.
  - split; [| reflexivity]. split; [intros _ a Ha; inversion Ha | reflexivity].
  - destruct (Hdue a (list_elem_of_here _ _)) as (q & Hq & Hq30).
    destruct IH as [IHiff IHlen].
    { intros b Hb. apply Hdue. apply list_elem_of_further. exact Hb. }
    pose proof (createProgressBar_throws q) as Hnone.
    cbn [App.notifications]. unfold App.sendSpendingNotification. rewrite Hq.
    destruct (App.createProgressBar (Fin q)) as [bar|] eqn:Hbar.
    + destruct (App.notifications alerts) as [made completed]. cbn [fst snd] in *.
      split; [| intros Hc; simpl; rewrite (IHlen Hc); reflexivity].
      rewrite IHiff. split.
      * intros Hrest b Hb. apply elem_of_cons in Hb as [-> | Hb]; [| apply Hrest; exact Hb].
        exists q. split; [exact Hq |]. apply Qnot_le_lt. intros Hge.
        discriminate (proj2 Hnone (or_intror Hge)).
      * intros Hall b Hb. apply Hall. apply list_elem_of_further. exact Hb.
    + cbn [fst snd]. split; [| discriminate]. split; [discriminate |].
      intros Hall. destruct (Hall a (list_elem_of_here _ _)) as (q' & Hq' & Hlt).
      rewrite Hq in Hq'. injection Hq' as <-.
      destruct (proj1 Hnone eq_refl); lra.
Qed.

(** X22. A run of the effect comes to its end, making one notification
    for each alert that is due, exactly when every alert that is due is
    for a percentage below 105.  An alert due for a card at 105 percent
    of its limit or more makes the run throw at that alert, before its
    key is recorded. *)
Theorem notifications_of_run (now : JsDate) (cards : list Card.t)
    (expenses : JsMap.t string Q) (permission : string) (sent : gmap string bool) :
  let alerts := App.spendingAlerts now cards expenses permission sent in
  ((App.notifications alerts).2 = true ↔
   ∀ a : App.Alert, a ∈ alerts → ∃ q : Q, App.alertPercentage a = Fin q ∧ (q < 105)%Q)
  ∧ ((App.notifications alerts).2 = true →
     length (App.notifications alerts).1 = length alerts).
Proof.
  intros alerts. apply notifications_completed.
  intros a Ha. apply (due_alert_percentage now cards expenses permission sent a Ha).
Qed.

(** A first purchase of 120 on a card with limit 100: the run throws at
    its first alert and makes no notification. *)
Example notifications_of_overspend :
  let card := Card.mk "card-7" "Store card" "4242" (Fin 100) "g" in
  App.notifications
    (App.spendingAlerts Samples.june2024 [card] [("card-7", 120%Q)] "granted" ∅)
  = ([], false).
Proof. reflexivity. Qed.

(** The card of the scenario at 320 of 1000: the run makes its one
    notification. *)
Lemma notifications_of_run_witness :
  let alerts := App.spendingAlerts Samples.june2024 [Samples.visa]
                  [("card-1", 320%Q)] "granted" ∅ in
  length (App.notifications alerts).1 = length alerts.
Proof.
  intros alerts.
  apply (notifications_of_run Samples.june2024 [Samples.visa] [("card-1", 320%Q)] "granted" ∅).
  reflexivity.
Defined.
